(** * DataTools4Heart data-catalogue preprocessing toolkit

    A shallow embedding of the three command-line tools of the repository
    and the properties their specification states about them:

    - [datasetMetadata_to_obibaFeaturesDict.py]  (module [Mapper])
    - [datasetFeatures_to_obibaAvailabilityData.py]  (module [Encoder])
    - [parquet_to_csv.py]  (module [Converter])

    The Python programs work on dynamically typed values (the tree that
    [json.load] returns, the cells of a pandas data frame).  Module [Py]
    models those values and the handful of built-in operations the tools
    apply to them, exceptions included; the tools are then transcribed
    statement by statement in a small monad of printed lines and
    exceptions.  Reading and writing files is left outside: a function takes
    what was read and yields what is written.  The text that pandas writes
    for a data frame is described after pandas' documentation. *)

From Stdlib Require Import ZArith Ascii String.
From stdpp Require Import base list strings pretty gmap.

Set Warnings "-register-all".
Local Open Scope string_scope.
Local Open Scope Z_scope.

(* ===================================================================== *)
(** * Python values and built-ins *)
(* ===================================================================== *)

Module Py.

(** The values [json.load] produces from a JSON document.  A Python float
    is a dyadic rational [m * 2^e]; the literals [NaN] and [Infinity], which
    JSON itself does not have, are left out.  A dict keeps its items in
    insertion order, keys pairwise distinct; lookup takes the first item
    with the key.  Strings are sequences of ASCII characters. *)
Inductive value : Type :=
| JNull
| JBool (b : bool)
| JInt (n : Z)
| JFloat (m e : Z)
| JStr (s : string)
| JList (l : list value)
| JDict (d : list (string * value)).

Abbreviation dict := (list (string * value)).

(** Why a [ValueError] was raised by the tools themselves; the payload is
    what the message interpolates. *)
Inductive reason : Type :=
| MissingDataType (feature_name : value)
| NominalRequiresValueSet (feature_name : value)
| NominalRequiresCase (feature_name : value)
| UnsupportedCodeType (first_code feature_name : value)
| UnknownDataType (data_type : string) (feature_name : value)
| CannotFindTargetCode
| TargetCodeNotFound (target_code : value)
| InvalidEntriesStructure.

Inductive exn : Type :=
| KeyError (key : value)
| IndexError
| TypeError
| AttributeError
| ValueError (why : reason)
| OSError
| OverflowError.

Inductive res (A : Type) : Type :=
| Ok (a : A)
| Raise (e : exn).
Arguments Ok {A} a.
Arguments Raise {A} e.

(** ** Dict access *)

Fixpoint dict_get {A : Type} (k : string) (d : list (string * A)) : option A :=
  match d with
  | [] => None
  | (k', v) :: d' => if String.eqb k k' then Some v else dict_get k d'
  end.

(** [d[k] = v] *)
Fixpoint dict_set (k : string) (v : value) (d : dict) : dict :=
  match d with
  | [] => [(k, v)]
  | (k', v') :: d' =>
      if String.eqb k k' then (k, v) :: d' else (k', v') :: dict_set k v d'
  end.

(** [x[k]] for a string [k] *)
Definition getitem (x : value) (k : string) : res value :=
  match x with
  | JDict d => match dict_get k d with
               | Some v => Ok v
               | None => Raise (KeyError (JStr k))
               end
  | _ => Raise TypeError
  end.

(** [x.get(k, dflt)]: only a dict has the method. *)
Definition get (x : value) (k : string) (dflt : value) : res value :=
  match x with
  | JDict d => Ok (default dflt (dict_get k d))
  | _ => Raise AttributeError
  end.

(** [x[0]].  The keys of a dict from [json.load] are strings, so [0] is
    never one of them. *)
Definition getitem0 (x : value) : res value :=
  match x with
  | JList [] => Raise IndexError
  | JList (v :: _) => Ok v
  | JStr EmptyString => Raise IndexError
  | JStr (String c _) => Ok (JStr (String c EmptyString))
  | JDict _ => Raise (KeyError (JInt 0))
  | _ => Raise TypeError
  end.

(** ** Truth value, [isinstance], [==] *)

(** [bool(x)], as tested by [if x] and [not x] *)
Definition truthy (x : value) : bool :=
  match x with
  | JNull => false
  | JBool b => b
  | JInt n => negb (n =? 0)
  | JFloat m _ => negb (m =? 0)
  | JStr s => negb (String.eqb s "")
  | JList l => match l with [] => false | _ => true end
  | JDict d => match d with [] => false | _ => true end
  end.

Definition isinstance_str (x : value) : bool :=
  match x with JStr _ => true | _ => false end.

(** [isinstance(x, (int, float))]; [bool] is a subclass of [int]. *)
Definition isinstance_int_float (x : value) : bool :=
  match x with JBool _ | JInt _ | JFloat _ _ => true | _ => false end.

(** The number a [bool], [int] or [float] stands for, as [m * 2^e]. *)
Definition number (x : value) : option (Z * Z) :=
  match x with
  | JBool b => Some (if b then 1 else 0, 0)
  | JInt n => Some (n, 0)
  | JFloat m e => Some (m, e)
  | _ => None
  end.

Definition number_eqb (a b : Z * Z) : bool :=
  let '(m1, e1) := a in
  let '(m2, e2) := b in
  let e := Z.min e1 e2 in
  (m1 * 2 ^ (e1 - e) =? m2 * 2 ^ (e2 - e)).

(** [a == b].  Numbers compare by value across [bool], [int] and [float];
    lists item by item; dicts by size and then key by key. *)
Fixpoint eqb (a b : value) {struct a} : bool :=
  match a, b with
  | JNull, JNull => true
  | JStr s, JStr t => String.eqb s t
  | JList l, JList l' =>
      (fix items (l l' : list value) {struct l} : bool :=
         match l, l' with
         | [], [] => true
         | x :: l, y :: l' => eqb x y && items l l'
         | _, _ => false
         end) l l'
  | JDict d, JDict d' =>
      (List.length d =? List.length d')%nat &&
      forallb (fun kv => match dict_get (fst kv) d' with
                         | Some v' => eqb (snd kv) v'
                         | None => false
                         end) d
  | (JBool _ | JInt _ | JFloat _ _), (JBool _ | JInt _ | JFloat _ _) =>
      match number a, number b with
      | Some x, Some y => number_eqb x y
      | _, _ => false
      end
  | _, _ => false
  end.

(** ** Strings *)

Definition upper_char (c : ascii) : ascii :=
  let n := N_of_ascii c in
  if ((97 <=? n) && (n <=? 122))%N then ascii_of_N (n - 32) else c.

(** [s.upper()] *)
Fixpoint upper_string (s : string) : string :=
  match s with
  | EmptyString => EmptyString
  | String c s' => String (upper_char c) (upper_string s')
  end.

(** [x.upper()]: only a str has the method. *)
Definition upper (x : value) : res string :=
  match x with
  | JStr s => Ok (upper_string s)
  | _ => Raise AttributeError
  end.

(** [c.isspace()] on ASCII: tab, LF, VT, FF, CR, FS, GS, RS, US, space *)
Definition isspace (c : ascii) : bool :=
  let n := N_of_ascii c in
  (((9 <=? n) && (n <=? 13)) || ((28 <=? n) && (n <=? 32)))%N.

Fixpoint lstrip (s : string) : string :=
  match s with
  | EmptyString => EmptyString
  | String c s' => if isspace c then lstrip s' else s
  end.

Fixpoint rstrip (s : string) : string :=
  match s with
  | EmptyString => EmptyString
  | String c s' =>
      match rstrip s' with
      | EmptyString => if isspace c then EmptyString else String c EmptyString
      | r => String c r
      end
  end.

(** [s.strip()] *)
Definition strip (s : string) : string := lstrip (rstrip s).

(** [p in s] for two strings *)
Fixpoint is_substring (p s : string) : bool :=
  String.prefix p s ||
  match s with
  | EmptyString => false
  | String _ s' => is_substring p s'
  end.

(** ** Iteration *)

Fixpoint chars (s : string) : list value :=
  match s with
  | EmptyString => []
  | String c s' => JStr (String c EmptyString) :: chars s'
  end.

(** The items [for x in v] goes through. *)
Definition iter (v : value) : res (list value) :=
  match v with
  | JList l => Ok l
  | JStr s => Ok (chars s)
  | JDict d => Ok (map (fun kv => JStr (fst kv)) d)
  | _ => Raise TypeError
  end.

(** [float(n)] overflows: the integer, rounded to 53 bits, half to even,
    does not fit a double, which is the case from [2^1024 - 2^970] on. *)
Definition float_limit : Z := 2 ^ 1024 - 2 ^ 970.

Definition int_too_large (n : Z) : bool := (float_limit <=? Z.abs n).

(** The items [for x in a + b] goes through.  Two lists and two strings
    concatenate.  Two numbers add up to a number, which cannot be iterated
    ([TypeError]), unless one is an integer too large for the float it
    meets: then the sum itself fails with [OverflowError].  No other pair
    has a [+] ([TypeError]). *)
Definition iter_add (a b : value) : res (list value) :=
  match a, b with
  | JList l, JList l' => Ok (l ++ l')%list
  | JStr s, JStr s' => Ok (chars (s ++ s'))
  | JInt n, JFloat _ _ | JFloat _ _, JInt n =>
      if int_too_large n then Raise OverflowError else Raise TypeError
  | _, _ => Raise TypeError
  end.

(** [k in x] for a string [k] *)
Definition contains (x : value) (k : string) : res bool :=
  match x with
  | JDict d => Ok (bool_decide (is_Some (dict_get k d)))
  | JList l => Ok (existsb (fun y => eqb y (JStr k)) l)
  | JStr s => Ok (is_substring k s)
  | _ => Raise TypeError
  end.

(** [sep.join(x)]: every item must be a str. *)
Fixpoint strings_of (l : list value) : res (list string) :=
  match l with
  | [] => Ok []
  | JStr s :: l' =>
      match strings_of l' with
      | Ok ss => Ok (s :: ss)
      | Raise e => Raise e
      end
  | _ :: _ => Raise TypeError
  end.

Definition join (sep : string) (x : value) : res string :=
  match iter x with
  | Ok l => match strings_of l with
            | Ok ss => Ok (String.concat sep ss)
            | Raise e => Raise e
            end
  | Raise e => Raise e
  end.

(** [str(x)], which is what an f-string interpolates.  The text Python
    prints for a float, a list or a dict is left to [repr]. *)
Section Str.
Variable repr : value -> string.

Definition str (x : value) : string :=
  match x with
  | JNull => "None"
  | JBool true => "True"
  | JBool false => "False"
  | JInt n => pretty n
  | JStr s => s
  | _ => repr x
  end.
End Str.

(** ** Printing and exceptions

    A computation yields the lines it printed, in order, and either a value
    or the exception that ended it. *)
Section Monad.
Context {msg : Type}.

Definition M (A : Type) : Type := (list msg * res A)%type.

Definition ret {A} (a : A) : M A := ([], Ok a).
Definition raise {A} (e : exn) : M A := ([], Raise e).
Definition lift {A} (r : res A) : M A := ([], r).
Definition print (m : msg) : M unit := ([m], Ok tt).

Definition bind {A B} (m : M A) (k : A -> M B) : M B :=
  match m with
  | (out, Ok a) => let (out', r) := k a in ((out ++ out')%list, r)
  | (out, Raise e) => (out, Raise e)
  end.

(** [try: m  except <handles> as e: handler e] *)
Definition try_except {A} (m : M A) (handles : exn -> bool)
    (handler : exn -> M A) : M A :=
  match m with
  | (out, Raise e) =>
      if handles e
      then let (out', r) := handler e in ((out ++ out')%list, r)
      else (out, Raise e)
  | (out, Ok a) => (out, Ok a)
  end.

Definition printed {A} (m : M A) : list msg := fst m.
Definition result {A} (m : M A) : res A := snd m.
End Monad.
Arguments M msg A : clear implicits.

(** [except Exception] *)
Definition any_exception (e : exn) : bool := true.
Definition is_KeyError (e : exn) : bool :=
  match e with KeyError _ => true | _ => false end.
Definition is_AttributeError (e : exn) : bool :=
  match e with AttributeError => true | _ => false end.

End Py.

Declare Scope py_scope.
Delimit Scope py_scope with py.
Notation "x <- m ;; k" := (Py.bind m (fun x => k))
  (at level 20, m at level 99, k at level 200, only parsing) : py_scope.

(* ===================================================================== *)
(** * datasetMetadata_to_obibaFeaturesDict.py *)
(* ===================================================================== *)

Module Mapper.
Import Py.
Local Open Scope py_scope.

(** The lines written to [sys.stderr]. *)
Inductive msg : Type :=
| ErrorDeterminingValueType (e : exn)
| ErrorDeterminingEntityType (e : exn)
| MissingRequiredKey (e : exn) (feature : value)
| MissingConceptKey (e : exn) (feature_name : value).

Abbreviation M := (Py.M msg).

Definition type_mapping : list (string * string) :=
  [("NUMERIC", "decimal"); ("BOOLEAN", "boolean"); ("DATETIME", "datetime")].

Definition determine_value_type_try (feature : value) : M string :=
  feature_name <- lift (getitem feature "name") ;;
  dt <- lift (get feature "dataType" (JStr "")) ;;
  data_type <- lift (upper dt) ;;
  if negb (truthy (JStr data_type))
  then raise (ValueError (MissingDataType feature_name))
  else
    if String.eqb data_type "NOMINAL" then
      has_value_set <- lift (contains feature "valueSet") ;;
      if negb has_value_set
      then raise (ValueError (NominalRequiresValueSet feature_name))
      else
        value_set <- lift (getitem feature "valueSet") ;;
        concepts <- lift (get value_set "concept" (JList [])) ;;
        if negb (truthy concepts)
        then raise (ValueError (NominalRequiresCase feature_name))
        else
          concept0 <- lift (getitem0 concepts) ;;
          first_code <- lift (get concept0 "code" (JStr "")) ;;
          if isinstance_str first_code then ret "text"
          else if isinstance_int_float first_code then ret "decimal"
          else raise (ValueError (UnsupportedCodeType first_code feature_name))
    else
      match dict_get data_type type_mapping with
      | None => raise (ValueError (UnknownDataType data_type feature_name))
      | Some value_type => ret value_type
      end.

Definition determine_value_type (feature : value) : M string :=
  try_except (determine_value_type_try feature) any_exception
    (fun e => _ <- print (ErrorDeterminingValueType e) ;; ret "error").

(** [next((x for x in items if cond(x)), dflt)] *)
Fixpoint next_where (cond : value -> M bool) (items : list value)
    (dflt : value) : M value :=
  match items with
  | [] => ret dflt
  | x :: items' =>
      b <- cond x ;;
      if b then ret x else next_where cond items' dflt
  end.

(** [entries.get('datasetStats', {}).get('featureStats', {})
      .get('encounters_encounterClass', {}).get('valueSet', [None])[0]] *)
Definition target_code_of (entries : value) : res value :=
  match get entries "datasetStats" (JDict []) with
  | Raise e => Raise e
  | Ok dataset_stats =>
  match get dataset_stats "featureStats" (JDict []) with
  | Raise e => Raise e
  | Ok feature_stats =>
  match get feature_stats "encounters_encounterClass" (JDict []) with
  | Raise e => Raise e
  | Ok stats =>
  match get stats "valueSet" (JList [JNull]) with
  | Raise e => Raise e
  | Ok value_set => getitem0 value_set
  end end end end.

Definition get_entity_type_try (entries : value) : M value :=
  features <- lift (get entries "features" (JList [])) ;;
  items <- lift (iter features) ;;
  encounters_feature <-
    next_where (fun f => name <- lift (get f "name" JNull) ;;
                         ret (eqb name (JStr "encounters_encounterClass")))
      items JNull ;;
  if negb (truthy encounters_feature) then ret (JStr "participant")
  else
    target_code <- lift (target_code_of entries) ;;
    if negb (truthy target_code)
    then raise (ValueError CannotFindTargetCode)
    else
      feature_value_set <- lift (get encounters_feature "valueSet" (JDict [])) ;;
      concepts <- lift (get feature_value_set "concept" (JList [])) ;;
      concept_items <- lift (iter concepts) ;;
      matching_concept <-
        next_where (fun c => code <- lift (get c "code" JNull) ;;
                             ret (eqb code target_code))
          concept_items JNull ;;
      if negb (truthy matching_concept)
      then raise (ValueError (TargetCodeNotFound target_code))
      else
        if truthy matching_concept
        then lift (get matching_concept "display" JNull)
        else ret (JStr "participant").

Definition get_entity_type (entries : value) : M value :=
  try_except (get_entity_type_try entries) any_exception
    (fun e => _ <- print (ErrorDeterminingEntityType e) ;;
              ret (JStr "participant")).

(** A row of the Variables sheet:
    [[table_name, name, value_type, entity_type, "", label_en, script]] *)
Record variable : Type := Variable_row {
  v_table : string;
  v_name : value;
  v_valueType : string;
  v_entityType : value;
  v_unit : string;
  v_label : string;
  v_script : string
}.

(** A row of the Categories sheet:
    [[table_name, feature["name"], code, "", 0, display]] *)
Record category : Type := Category_row {
  c_table : string;
  c_variable : value;
  c_code : value;
  c_blank : string;
  c_missing : Z;
  c_label : value
}.

(** [for x in items: body(x)], where each round appends its rows to the
    list under construction. *)
Fixpoint for_each {A : Type} (body : value -> M (list A))
    (items : list value) : M (list A) :=
  match items with
  | [] => ret []
  | x :: items' =>
      rows <- body x ;;
      rest <- for_each body items' ;;
      ret (rows ++ rest)%list
  end.

Section Extract.
Variable repr : value -> string.

(** One round of the loop of [extract_variables]. *)
Definition extract_variable (table_name : string) (entity_type : value)
    (feature : value) : M (list variable) :=
  try_except
    (name <- lift (getitem feature "name") ;;
     value_type <- determine_value_type feature ;;
     description <- lift (get feature "description" (JStr "")) ;;
     generated <- lift (get feature "generatedDescription" (JList [])) ;;
     joined <- lift (join " " generated) ;;
     let label_en := strip (str repr description ++ " " ++ joined) in
     let script := "$('" ++ str repr name ++ "')" in
     ret [Variable_row table_name name value_type entity_type ""
            label_en script])
    is_KeyError
    (fun e => _ <- print (MissingRequiredKey e feature) ;; ret []).

Definition extract_variables (entries : value) (table_name : string)
    (entity_type : value) : M (list variable) :=
  try_except
    (features <- lift (get entries "features" (JList [])) ;;
     outcomes <- lift (get entries "outcomes" (JList [])) ;;
     items <- lift (iter_add features outcomes) ;;
     for_each (extract_variable table_name entity_type) items)
    is_AttributeError
    (fun _ => raise (ValueError InvalidEntriesStructure)).
End Extract.

(** One round of the inner loop of [extract_categories]. *)
Definition extract_category (table_name : string) (feature concept : value)
    : M (list category) :=
  try_except
    (name <- lift (getitem feature "name") ;;
     code <- lift (get concept "code" (JStr "")) ;;
     display <- lift (get concept "display" (JStr "")) ;;
     ret [Category_row table_name name code "" 0 display])
    is_KeyError
    (fun e => feature_name <- lift (get feature "name" JNull) ;;
              _ <- print (MissingConceptKey e feature_name) ;;
              ret []).

(** One round of the outer loop of [extract_categories]. *)
Definition extract_feature_categories (table_name : string) (feature : value)
    : M (list category) :=
  dt <- lift (get feature "dataType" (JStr "")) ;;
  data_type <- lift (upper dt) ;;
  selected <- (if String.eqb data_type "NOMINAL"
               then lift (contains feature "valueSet")
               else ret false) ;;
  if selected : bool then
    value_set <- lift (getitem feature "valueSet") ;;
    concepts <- lift (get value_set "concept" (JList [])) ;;
    concept_items <- lift (iter concepts) ;;
    for_each (extract_category table_name feature) concept_items
  else ret [].

Definition extract_categories (entries : value) (table_name : string)
    : M (list category) :=
  try_except
    (features <- lift (get entries "features" (JList [])) ;;
     items <- lift (iter features) ;;
     for_each (extract_feature_categories table_name) items)
    is_AttributeError
    (fun _ => raise (ValueError InvalidEntriesStructure)).

End Mapper.

(* ===================================================================== *)
(** * datasetFeatures_to_obibaAvailabilityData.py *)
(* ===================================================================== *)

Module Encoder.
Import Py.
Local Open Scope py_scope.

Definition BASE_COLUMNS : list string :=
  ["pid"; "encounterId"; "referenceTimePoint"; "eventTime"; "exitTime"].

(** A cell of a pandas data frame.  [NA] is a missing value ([None], [NaN],
    [NaT]); everything else is a value, the empty string included. *)
Inductive cell : Type :=
| NA
| Str (s : string)
| Int (n : Z)
| Float (m e : Z)
| Bool (b : bool)
| Timestamp (ns : Z).

(** A data frame: its columns in order, each a label and its cells.  The
    labels of a table read from Parquet are pairwise distinct. *)
Abbreviation frame := (list (string * list cell)).

Definition columns (df : frame) : list string := map fst df.

(** [x.notna()] for one cell; pandas documents that empty strings are not
    considered missing. *)
Definition notna (x : cell) : bool :=
  match x with NA => false | _ => true end.

(** [.astype(int)] on a boolean cell *)
Definition astype_int (b : bool) : cell := Int (if b then 1 else 0).

(** [df[col] = f(df[col])] *)
Definition assign (col : string) (f : list cell -> list cell) (df : frame)
    : frame :=
  map (fun c => if String.eqb (fst c) col then (fst c, f (snd c)) else c) df.

(** The lines written to [sys.stdout]. *)
Inductive line : Type :=
| ValidationErrors
| ColumnsMissingInXLS (cols : gset string)
| ColumnsMissingInParquet (cols : gset string)
| Proceeding
| ValidationSuccessful
| ValidationError (e : exn)
| TransformationCompleted.

Abbreviation M := (Py.M line).

(** The strings among the cells of the dictionary's [name] column. *)
Definition strings (cells : list cell) : list string :=
  omap (fun c => match c with Str s => Some s | _ => None end) cells.

Definition is_str (c : cell) : bool :=
  match c with Str _ => true | _ => false end.

(** [', '.join(xs)] for a set [xs] of cells: every item must be a str. *)
Definition join_set (others : bool) (xs : gset string) : res (gset string) :=
  if others then Raise TypeError else Ok xs.

(** [dictionary] is what [pd.read_excel(xls_path, sheet_name='Variables')]
    followed by [dict_df['name'].tolist()] came to: the cells of the column,
    or the exception raised on the way.  A set of cells is kept as the set
    of its strings and a flag telling whether it has other members; the
    column labels are strings, so such members are never among them. *)
Definition validate_dictionary (parquet_columns : list string)
    (dictionary : res (list cell)) : M unit :=
  try_except
    (dict_columns <- lift dictionary ;;
     let parquet_cols_to_check :=
       filter (fun col => col ∉ BASE_COLUMNS) parquet_columns in
     let missing_in_dict : gset string :=
       list_to_set parquet_cols_to_check ∖ list_to_set (strings dict_columns) in
     let missing_in_parquet : gset string :=
       list_to_set (strings dict_columns) ∖ list_to_set parquet_cols_to_check in
     let others_in_parquet := negb (forallb is_str dict_columns) in
     let some_in_dict := bool_decide (missing_in_dict ≠ ∅) in
     let some_in_parquet :=
       bool_decide (missing_in_parquet ≠ ∅) || others_in_parquet in
     if some_in_dict || some_in_parquet then
       _ <- print ValidationErrors ;;
       _ <- (if some_in_dict then
               xs <- lift (join_set false missing_in_dict) ;;
               print (ColumnsMissingInXLS xs)
             else ret tt) ;;
       _ <- (if some_in_parquet then
               xs <- lift (join_set others_in_parquet missing_in_parquet) ;;
               print (ColumnsMissingInParquet xs)
             else ret tt) ;;
       print Proceeding
     else print ValidationSuccessful)
    any_exception
    (fun e => _ <- print (ValidationError e) ;; print Proceeding).

(** [df] is the table [pd.read_parquet(input_parquet)] returned;
    [dictionary] is [None] when [dictionary_path] is not given (or empty) and
    otherwise the outcome of reading it.  The value is the frame handed to
    [df.to_csv(output_csv, index=False)]. *)
Definition transform_data (df : frame) (dictionary : option (res (list cell)))
    : M frame :=
  _ <- match dictionary with
       | Some d => validate_dictionary (columns df) d
       | None => ret tt
       end ;;
  let df :=
    fold_left
      (fun df col =>
         if bool_decide (col ∉ BASE_COLUMNS)
         then assign col (map (fun x => astype_int (notna x))) df
         else df)
      (columns df) df in
  _ <- print TransformationCompleted ;;
  ret df.

End Encoder.

(* ===================================================================== *)
(** * parquet_to_csv.py *)
(* ===================================================================== *)

Module Converter.
Import Py.
Import Encoder.
Local Open Scope py_scope.


(** ** pandas' text tables

    [DataFrame.to_csv] is pandas' code, not this repository's; it is
    written here from pandas' documentation of its defaults.  A text table
    is kept as its header and its records, each a list of fields: under the
    default quoting ([csv.QUOTE_MINIMAL]) a field that holds a separator, a
    quote or a line break is written between quotes, which a reader of the
    text takes away again. *)
Record table : Type := Table {
  header : list string;
  records : list (list string)
}.







End Converter.

(* ===================================================================== *)
(** * datasetMetadata_to_obibaFeaturesDict.py: the conversion run *)
(* ===================================================================== *)

Module Structure.
Import Py Mapper.

(** What ends a run: the errors [main] and [validate_json_structure] raise
    themselves, and any exception of a built-in or of an extractor. *)
Inductive failure : Type :=
| InputFileNotFound
| InvalidJSONFormat
| MissingEntriesKey
| EntriesNotNonEmptyList
| EntryNotDictionary
| MissingSection (section : string)
| PermissionDenied
| Exception (e : exn).

Inductive outcome (A : Type) : Type :=
| Fine (a : A)
| Failed (f : failure).
Arguments Fine {A} a.
Arguments Failed {A} f.

Definition isinstance_list (x : value) : bool :=
  match x with JList _ => true | _ => false end.

Definition isinstance_dict (x : value) : bool :=
  match x with JDict _ => true | _ => false end.

(** [len(x)] *)
Definition len (x : value) : res nat :=
  match x with
  | JList l => Ok (List.length l)
  | JDict d => Ok (List.length d)
  | JStr s => Ok (String.length s)
  | _ => Raise TypeError
  end.

(** [for section in required_sections: if section not in first_entry: raise] *)
Fixpoint check_sections (first_entry : value) (sections : list string)
    : outcome unit :=
  match sections with
  | [] => Fine tt
  | section :: sections' =>
      match contains first_entry section with
      | Raise e => Failed (Exception e)
      | Ok false => Failed (MissingSection section)
      | Ok true => check_sections first_entry sections'
      end
  end.

Definition validate_json_structure (data : value) : outcome unit :=
  match contains data "entries" with
  | Raise e => Failed (Exception e)
  | Ok false => Failed MissingEntriesKey
  | Ok true =>
  match getitem data "entries" with
  | Raise e => Failed (Exception e)
  | Ok entries =>
  if negb (isinstance_list entries) then Failed EntriesNotNonEmptyList
  else
  match len entries with
  | Raise e => Failed (Exception e)
  | Ok n =>
  if (n =? 0)%nat then Failed EntriesNotNonEmptyList
  else
  match getitem0 entries with
  | Raise e => Failed (Exception e)
  | Ok first_entry =>
  if negb (isinstance_dict first_entry) then Failed EntryNotDictionary
  else check_sections first_entry ["features"; "outcomes"]
  end end end end.

(** The lines a run prints: those of the extractors, on [sys.stderr], and
    its own. *)
Inductive line : Type :=
| Stderr (m : msg)
| Success
| Error (f : failure)
| UsageInstructions
| Help
| Examples.

(** A step of [main]: the lines printed and how the step ended. *)
Definition R (A : Type) : Type := (list line * outcome A)%type.

Definition ret {A} (a : A) : R A := ([], Fine a).
Definition fail {A} (f : failure) : R A := ([], Failed f).
Definition print (l : line) : R unit := ([l], Fine tt).

Definition bind {A B} (m : R A) (k : A -> R B) : R B :=
  match m with
  | (out, Fine a) => let (out', r) := k a in ((out ++ out')%list, r)
  | (out, Failed f) => (out, Failed f)
  end.

(** A call of one of the functions above. *)
Definition call {A} (m : M A) : R A :=
  match m with
  | (out, Ok a) => (map Stderr out, Fine a)
  | (out, Raise e) => (map Stderr out, Failed (Exception e))
  end.

Definition check {A} (o : outcome A) : R A := ([], o).

Definition print_usage_examples : R unit := print Examples.

(** What [main] finds at [json_file]: nothing, a text that is not JSON, or
    the value [json.load] returns.  A file that exists but cannot be opened
    or decoded as UTF-8 is left out. *)
Inductive source : Type :=
| NoFile
| NotJSON
| Loaded (data : value).

(** What creating the output directory and writing the two sheets came to. *)
Inductive writing : Type :=
| Saved
| PermissionError
| WriteError (e : exn).

(** The two data frames handed to [to_excel]. *)
Record workbook : Type := Workbook {
  Variables : list variable;
  Categories : list category
}.

(** How the process ends: [main] returns, the workbook written, or
    [sys.exit(1)]. *)
Inductive finish : Type :=
| Done (written : workbook)
| Exit1.

End Structure.

Declare Scope main_scope.
Delimit Scope main_scope with main.
Notation "x <- m ;; k" := (Structure.bind m (fun x => k))
  (at level 20, m at level 99, k at level 200, only parsing) : main_scope.

Module Main.
Import Py Mapper Structure.
Local Open Scope main_scope.

Section WithRepr.
Variable repr : value -> string.

(** The body of the [try] of [main]. *)
Definition main_try (json_file : source) (table_name : string)
    (xlsx_file : writing) : R workbook :=
  data <- match json_file with
          | NoFile => fail InputFileNotFound
          | NotJSON => fail InvalidJSONFormat
          | Loaded data => ret data
          end ;;
  _ <- check (validate_json_structure data) ;;
  entries <- call (lift match getitem data "entries" with
                        | Ok all_entries => getitem0 all_entries
                        | Raise e => Raise e
                        end) ;;
  entity_type <- call (get_entity_type entries) ;;
  variables <- call (extract_variables repr entries table_name entity_type) ;;
  categories <- call (extract_categories entries table_name) ;;
  _ <- match xlsx_file with
       | Saved => ret tt
       | PermissionError => fail PermissionDenied
       | WriteError e => fail (Exception e)
       end ;;
  _ <- print Success ;;
  ret (Workbook variables categories).

Definition main (json_file : source) (table_name : string)
    (xlsx_file : writing) : list line * finish :=
  match main_try json_file table_name xlsx_file with
  | (out, Fine written) => (out, Done written)
  | (out, Failed f) =>
      let (out', _) :=
        (_ <- print (Error f) ;;
         _ <- print UsageInstructions ;;
         _ <- print Help ;;
         print_usage_examples) in
      ((out ++ out')%list, Exit1)
  end.
End WithRepr.

End Main.
(* ===================================================================== *)
(** * Reading a descriptor the way the specification does *)
(* ===================================================================== *)

Import Py Mapper.

Definition value_types : list string :=
  ["text"; "decimal"; "boolean"; "datetime"; "error"].

(** The feature's [dataType], upper-cased, is [t]. *)
Definition data_type_is (d : dict) (t : string) : Prop :=
  ∃ s, dict_get "dataType" d = Some (JStr s) ∧ upper_string s = t.

(** [valueSet.concept] is absent or empty. *)
Definition no_concept (d : dict) : Prop :=
  dict_get "valueSet" d = None ∨
  ∃ vs, dict_get "valueSet" d = Some (JDict vs) ∧
        (dict_get "concept" vs = None ∨ dict_get "concept" vs = Some (JList [])).

(** [code] is the [code] of the first concept of [valueSet.concept]. *)
Definition first_code_is (d : dict) (code : value) : Prop :=
  ∃ vs c cs, dict_get "valueSet" d = Some (JDict vs) ∧
             dict_get "concept" vs = Some (JList (JDict c :: cs)) ∧
             dict_get "code" c = Some code.

(** The feature with its [dataType], when that is a string, upper-cased. *)
Definition with_upper_dataType (feature : value) : value :=
  match feature with
  | JDict d =>
      match dict_get "dataType" d with
      | Some (JStr s) => JDict (dict_set "dataType" (JStr (upper_string s)) d)
      | _ => feature
      end
  | _ => feature
  end.

(** The rules of the Value-Type Resolver, in the order the specification
    gives them, for a feature with items [d]: [dataType] is read upper-cased,
    and a boolean code counts as a number. *)
Inductive value_type_rule (d : dict) : string → Prop :=
| rule1_missing :
    dict_get "dataType" d = None → value_type_rule d "error"
| rule1_empty :
    dict_get "dataType" d = Some (JStr "") → value_type_rule d "error"
| rule2_no_concept :
    data_type_is d "NOMINAL" → no_concept d → value_type_rule d "error"
| rule2_string_code s :
    data_type_is d "NOMINAL" → first_code_is d (JStr s) →
    value_type_rule d "text"
| rule2_int_code n :
    data_type_is d "NOMINAL" → first_code_is d (JInt n) →
    value_type_rule d "decimal"
| rule2_float_code m e :
    data_type_is d "NOMINAL" → first_code_is d (JFloat m e) →
    value_type_rule d "decimal"
| rule2_bool_code b :
    data_type_is d "NOMINAL" → first_code_is d (JBool b) →
    value_type_rule d "decimal"
| rule2_other_code code :
    data_type_is d "NOMINAL" → first_code_is d code →
    code = JNull ∨ (∃ l, code = JList l) ∨ (∃ c, code = JDict c) →
    value_type_rule d "error"
| rule3_numeric :
    data_type_is d "NUMERIC" → value_type_rule d "decimal"
| rule3_boolean :
    data_type_is d "BOOLEAN" → value_type_rule d "boolean"
| rule3_datetime :
    data_type_is d "DATETIME" → value_type_rule d "datetime"
| rule4_other t :
    data_type_is d t →
    t ∉ ["NOMINAL"; "NUMERIC"; "BOOLEAN"; "DATETIME"] →
    value_type_rule d "error"
| rule4_not_a_string v :
    dict_get "dataType" d = Some v → isinstance_str v = false →
    value_type_rule d "error".


Definition encounterClass : string := "encounters_encounterClass".




(** [x] is the first item of [items] that satisfies [p]; the items before it
    are dicts that do not. *)
Definition first_dict (p : dict → bool) (items : list value) (x : dict)
    : Prop :=
  ∃ before after,
    items = (before ++ JDict x :: after)%list ∧
    Forall (λ y, ∃ d, y = JDict d ∧ p d = false) before ∧
    p x = true.

Definition is_encounter_feature (d : dict) : bool :=
  eqb (default JNull (dict_get "name" d)) (JStr encounterClass).


(** ** Variable and category rows *)

(** The strings among the items of a list. *)
Definition texts (v : value) : list string :=
  match v with
  | JList l => omap (λ x, match x with JStr s => Some s | _ => None end) l
  | _ => []
  end.

(** A feature descriptor as the data model has it: a record whose
    [generatedDescription], when present, is a sequence of strings. *)
Definition well_formed_feature (f : value) : bool :=
  match f with
  | JDict d =>
      match default (JList []) (dict_get "generatedDescription" d) with
      | JList l => forallb isinstance_str l
      | _ => false
      end
  | _ => false
  end.

(** The value type the resolver gives the feature. *)
Definition resolved_value_type (f : value) : string :=
  match result (determine_value_type f) with
  | Ok value_type => value_type
  | Raise _ => "error"
  end.

Section Rows.
Variable repr : value → string.

(** [description], a space, and the space-joined [generatedDescription],
    trimmed. *)
Definition label_of (d : dict) : string :=
  strip (str repr (default (JStr "") (dict_get "description" d)) ++ " " ++
         String.concat " "
           (texts (default (JList []) (dict_get "generatedDescription" d)))).

(** The Variables row of a feature, if it has a [name]. *)
Definition variable_row_of (table : string) (entity_type : value)
    (f : value) : option variable :=
  match f with
  | JDict d =>
      name ← dict_get "name" d;
      Some (Variable_row table name (resolved_value_type f) entity_type ""
              (label_of d) ("$('" ++ str repr name ++ "')"))
  | _ => None
  end.
End Rows.

(** The names of the features that have one, in order. *)
Definition feature_names (fs : list value) : list value :=
  omap (λ f, match f with JDict d => dict_get "name" d | _ => None end) fs.

Definition is_dict (x : value) : bool :=
  match x with JDict _ => true | _ => false end.

(** The concepts of [valueSet.concept]. *)
Definition concepts_of (d : dict) : list value :=
  match dict_get "valueSet" d with
  | Some (JDict vd) =>
      match default (JList []) (dict_get "concept" vd) with
      | JList cs => cs
      | _ => []
      end
  | _ => []
  end.

(** The feature's [dataType] is NOMINAL and it has a [valueSet]. *)
Definition has_categories (d : dict) : bool :=
  match default (JStr "") (dict_get "dataType" d) with
  | JStr s => String.eqb (upper_string s) "NOMINAL"
  | _ => false
  end && bool_decide (is_Some (dict_get "valueSet" d)).

(** A feature descriptor as the Category Extractor needs it: a record whose
    [dataType], when present, is a string and, when it has categories, whose
    [valueSet] is a record with a list of concept records. *)
Definition well_formed_categories (f : value) : bool :=
  match f with
  | JDict d =>
      isinstance_str (default (JStr "") (dict_get "dataType" d)) &&
      (negb (has_categories d) ||
       match dict_get "valueSet" d with
       | Some (JDict vd) =>
           match default (JList []) (dict_get "concept" vd) with
           | JList cs => forallb is_dict cs
           | _ => false
           end
       | _ => false
       end)
  | _ => false
  end.

(** The code and the label of a concept, [""] when it has none. *)
Definition code_of (c : value) : value :=
  match c with
  | JDict cd => default (JStr "") (dict_get "code" cd)
  | _ => JStr ""
  end.

Definition display_of (c : value) : value :=
  match c with
  | JDict cd => default (JStr "") (dict_get "display" cd)
  | _ => JStr ""
  end.

(** The Categories rows of a feature: one per concept when it is NOMINAL,
    has a [valueSet] and a [name]; none otherwise. *)
Definition category_rows_of (table : string) (f : value) : list category :=
  match f with
  | JDict d =>
      if has_categories d then
        match dict_get "name" d with
        | Some name =>
            (λ c, Category_row table name (code_of c) "" 0 (display_of c))
              <$> concepts_of d
        | None => []
        end
      else []
  | _ => []
  end.

(** The codes of the concepts of a feature, in order, [""] for a concept
    without one. *)
Definition concept_codes (f : value) : list value :=
  match f with
  | JDict d => code_of <$> concepts_of d
  | _ => []
  end.

(** The (variable, code) pair of a Categories row. *)
Definition category_key (row : category) : value * value :=
  (c_variable row, c_code row).

(** ** Availability *)

(** 1 for a cell that holds a value, 0 for a missing one. *)
Definition availability (x : Encoder.cell) : Encoder.cell :=
  Encoder.Int (if Encoder.notna x then 1 else 0).

(** An identifier column is kept; any other column becomes its
    availability. *)
Definition encode_column (c : string * list Encoder.cell)
    : string * list Encoder.cell :=
  if bool_decide (c.1 ∈ Encoder.BASE_COLUMNS) then c
  else (c.1, map availability c.2).

(** The two sides of the symmetric difference between the non-identifier
    columns of the table and the names of the dictionary: the columns the
    dictionary lacks, and the names the table lacks. *)
Definition mismatches (columns names : list string)
    : gset string * gset string :=
  let checked : gset string :=
    list_to_set (filter (λ col, col ∉ Encoder.BASE_COLUMNS) columns) in
  (checked ∖ list_to_set names, list_to_set names ∖ checked).

(** ** Reading a text table back *)








(** ** More on availability *)

(** The column with every cell of a non-identifier column set to 1. *)
Definition all_present (c : string * list Encoder.cell)
    : string * list Encoder.cell :=
  if bool_decide (c.1 ∈ Encoder.BASE_COLUMNS) then c
  else (c.1, map (λ _, Encoder.Int 1) c.2).
(* ===================================================================== *)
(** * Sample inputs *)
(* ===================================================================== *)

Definition feature_smoker : dict :=
  [("name", JStr "smoker"); ("dataType", JStr "Nominal");
   ("valueSet", JDict [("concept", JList [JDict [("code", JInt 1)]])])].

Definition feature_deceased : dict :=
  [("name", JStr "deceased"); ("dataType", JStr "NOMINAL");
   ("valueSet",
    JDict [("concept",
            JList [JDict [("code", JBool true); ("display", JStr "yes")];
                   JDict [("code", JBool false); ("display", JStr "no")]])])].

Definition feature_height : dict :=
  [("name", JStr "height"); ("dataType", JStr "numeric")].

Definition feature_nameless : dict := [("dataType", JStr "NUMERIC")].

Definition feature_sex (data_type : string) : value :=
  JDict [("name", JStr "sex"); ("dataType", JStr data_type);
         ("valueSet",
          JDict [("concept",
                  JList [JDict [("code", JStr "M"); ("display", JStr "Male")];
                         JDict [("code", JStr "F");
                                ("display", JStr "Female")]])])].

Definition feature_age : value :=
  JDict [("name", JStr "age"); ("dataType", JStr "NUMERIC")].



Definition entries_demo : dict :=
  [("features", JList [feature_age; JDict [("dataType", JStr "NUMERIC")]]);
   ("outcomes", JList [feature_sex "NOMINAL"])].

Definition entries_sex : dict :=
  [("features", JList [feature_age; feature_sex "NOMINAL"]);
   ("outcomes", JList [feature_sex "NOMINAL"])].

Definition entries_twice : dict :=
  [("features", JList [feature_sex "NOMINAL"; feature_sex "NOMINAL"]);
   ("outcomes", JList [])].

Definition frame_visits : Encoder.frame :=
  [("pid", [Encoder.Str "p1"; Encoder.NA; Encoder.Str ""]);
   ("a", [Encoder.NA; Encoder.Str "x"; Encoder.Str ""]);
   ("b", [Encoder.Int 0; Encoder.NA; Encoder.Bool false])].



Definition feature_blood_group : dict :=
  [("name", JStr "blood_group"); ("dataType", JStr "NOMINAL");
   ("description", JStr "ABO group");
   ("valueSet",
    JDict [("concept",
            JList [JDict [("display", JStr "unknown")];
                   JDict [("code", JInt 1); ("display", JStr "A")]])])].

Definition feature_listed_values : dict :=
  [("name", JStr "ward"); ("dataType", JStr "NOMINAL");
   ("valueSet", JList [JDict [("code", JStr "W1")]])].

Definition entries_numbered_class : dict :=
  [("features",
    JList [JDict [("name", JStr "encounters_encounterClass");
                  ("dataType", JStr "NOMINAL");
                  ("valueSet",
                   JDict [("concept",
                           JList [JDict [("code", JInt 0);
                                         ("display", JStr "inpatient")]])])]]);
   ("outcomes", JList []);
   ("datasetStats",
    JDict [("featureStats",
            JDict [("encounters_encounterClass",
                    JDict [("valueSet", JList [JInt 0])])])])].

Definition feature_unnamed_nominal : dict :=
  [("dataType", JStr "NOMINAL");
   ("valueSet",
    JDict [("concept",
            JList [JDict [("code", JStr "M")]; JDict [("code", JStr "F")]])])].

Definition data_demo : dict :=
  [("entries", JList [JDict entries_sex; JNull]); ("version", JInt 2)].

(* ===================================================================== *)
(** * Properties *)
(* ===================================================================== *)

Local Open Scope list_scope.

#[local] Arguments bind : simpl never.
#[local] Arguments lift : simpl never.
#[local] Arguments ret : simpl never.
#[local] Arguments raise : simpl never.
#[local] Arguments print : simpl never.
#[local] Arguments try_except : simpl never.

(** ** Laws of printing and exceptions *)

Section MonadLaws.
Context {msg : Type}.

Lemma bind_lift_Ok {A B} (a : A) (k : A → Py.M msg B) :
  bind (lift (Ok a)) k = k a.
Proof. unfold bind, lift. by destruct (k a). Qed.

Lemma bind_lift_Raise {A B} (e : exn) (k : A → Py.M msg B) :
  bind (lift (Raise e)) k = raise e.
Proof. done. Qed.

Lemma bind_ret {A B} (a : A) (k : A → Py.M msg B) : bind (ret a) k = k a.
Proof. apply bind_lift_Ok. Qed.

Lemma bind_raise {A B} (e : exn) (k : A → Py.M msg B) :
  bind (raise e) k = raise e.
Proof. done. Qed.

Lemma bind_ext {A B} (m : Py.M msg A) (k k' : A → Py.M msg B) :
  (∀ a, k a = k' a) → bind m k = bind m k'.
Proof.
  intros Hk. unfold bind. destruct m as [out [a|e]]; [by rewrite Hk|done].
Qed.

Lemma bind_Ok_inv {A B} (m : Py.M msg A) (k : A → Py.M msg B) out b :
  bind m k = (out, Ok b) →
  ∃ out1 a out2, m = (out1, Ok a) ∧ k a = (out2, Ok b) ∧
                 out = (out1 ++ out2)%list.
Proof.
  unfold bind. destruct m as [out1 [a|e]]; [|done].
  destruct (k a) as [out2 r] eqn:E. intros [= <- ->]. by exists out1, a, out2.
Qed.


Lemma ret_Ok_inv {A} (a a' : A) out :
  ret a = (out, Ok a') → a = a' ∧ out = ([] : list msg).
Proof. by intros [= <- ->]. Qed.

Lemma bind_Ok {A B} out (a : A) (k : A → Py.M msg B) :
  bind (out, Ok a) k = ((out ++ printed (k a))%list, result (k a)).
Proof. unfold bind. by destruct (k a). Qed.

Lemma try_except_Ok {A} out (a : A) handles (h : exn → Py.M msg A) :
  try_except (out, Ok a) handles h = (out, Ok a).
Proof. done. Qed.

Lemma bind_print {B} (m : msg) (k : unit → Py.M msg B) :
  bind (print m) k = (m :: printed (k tt), result (k tt)).
Proof. unfold bind, print. by destruct (k tt). Qed.

Lemma try_except_ret {A} (a : A) handles (h : exn → Py.M msg A) :
  try_except (ret a) handles h = ret a.
Proof. done. Qed.

Lemma try_except_raise {A} e handles (h : exn → Py.M msg A) :
  try_except (raise e) handles h = if handles e then h e else raise e.
Proof.
  unfold try_except, raise. destruct (handles e); [by destruct (h e)|done].
Qed.

Lemma try_except_any {A} (m : Py.M msg A) (h : exn → Py.M msg A) :
  try_except m any_exception h =
    match m with
    | (out, Ok a) => (out, Ok a)
    | (out, Raise e) => ((out ++ printed (h e))%list, result (h e))
    end.
Proof.
  destruct m as [out [a|e]]; unfold try_except, any_exception; [done|].
  by destruct (h e).
Qed.
End MonadLaws.

(** Running a function on a partly known input: unfold the built-ins, use
    the known lookups, and step through [bind] and [try_except]. *)
Ltac py_rew :=
  repeat match goal with
  | H : dict_get _ _ = _ |- _ => rewrite H
  | H : upper_string _ = _ |- _ => rewrite H
  end.

Ltac py_eval :=
  repeat (progress
    (cbn; py_rew;
     rewrite ?bind_lift_Ok, ?bind_lift_Raise, ?bind_ret, ?bind_raise,
       ?try_except_ret, ?try_except_raise)).

(** Split on the next lookup, value or test the run depends on. *)
Ltac py_case :=
  match goal with
  | |- context [dict_get ?k ?d] =>
      is_var d; destruct (dict_get k d) eqn:?
  | |- context [upper ?v] => is_var v; destruct v
  | |- context [get ?v _ _] => is_var v; destruct v
  | |- context [getitem0 ?v] => is_var v; destruct v
  | |- context [if ?b then _ else _] => destruct b eqn:?
  | |- context [match ?x with _ => _ end] => is_var x; destruct x
  end.

(** ** The Value-Type Resolver *)

Lemma determine_value_type_try_Ok feature out vt :
  determine_value_type_try feature = (out, Ok vt) →
  out = [] ∧ vt ∈ ["text"; "decimal"; "boolean"; "datetime"].
Proof.
  unfold determine_value_type_try.
  destruct feature; py_eval; try discriminate.
  repeat (py_case; py_eval; try discriminate).
  all: intros [= <- <-]; split; [done|]; repeat constructor.
Qed.

Lemma determine_value_type_total feature :
  ∃ out vt, determine_value_type feature = (out, Ok vt) ∧ vt ∈ value_types.
Proof.
  unfold determine_value_type. rewrite try_except_any.
  destruct (determine_value_type_try feature) as [out [vt|e]] eqn:E.
  - apply determine_value_type_try_Ok in E as [-> Hvt].
    exists [], vt. split; [done|]. unfold value_types.
    repeat (apply elem_of_cons in Hvt as [->|Hvt]; [repeat constructor|]).
    by apply elem_of_nil in Hvt.
  - eexists _, _. split; [done|]. cbn. repeat constructor.
Qed.

Ltac destruct_exists :=
  repeat match goal with
  | H : ∃ _, _ |- _ => destruct H
  | H : _ ∧ _ |- _ => destruct H
  | H : _ ∨ _ |- _ => destruct H
  end.

Lemma value_type_rule_sound d name vt :
  dict_get "name" d = Some name → value_type_rule d vt →
  result (determine_value_type (JDict d)) = Ok vt.
Proof.
  intros Hname Hrule. unfold determine_value_type, determine_value_type_try.
  destruct Hrule as [| | | | | | | | | | |t [s [Hs <-]] Ht|v Hv Hstr];
    unfold data_type_is, no_concept, first_code_is in *;
    destruct_exists; subst; py_eval; try done.
  - destruct (upper_string s =? "")%string; py_eval; [done|].
    repeat match goal with
    | |- context [(upper_string s =? ?k)%string] =>
        destruct (String.eqb_spec (upper_string s) k) as [E|_];
        [exfalso; apply Ht; rewrite E, !elem_of_cons; tauto|]
    end.
    by py_eval.
  - destruct v; try discriminate; by py_eval.
Qed.

(** C1, as stated, fails in three places.  A NOMINAL feature whose first
    code is [True] resolves to "decimal", although a boolean is neither a
    string nor a number of the descriptor; the [dataType] "numeric", which is
    none of NOMINAL, NUMERIC, BOOLEAN, DATETIME, resolves to "decimal"; and
    a NUMERIC feature without a [name] resolves to "error". *)
Lemma resolver_departs_from_rules :
  first_code_is feature_deceased (JBool true) ∧
  result (determine_value_type (JDict feature_deceased)) = Ok "decimal" ∧
  dict_get "dataType" feature_height = Some (JStr "numeric") ∧
  result (determine_value_type (JDict feature_height)) = Ok "decimal" ∧
  dict_get "dataType" feature_nameless = Some (JStr "NUMERIC") ∧
  result (determine_value_type (JDict feature_nameless)) = Ok "error".
Proof.
  split; [by eexists _, _, _|]. by repeat split.
Qed.

(** C1, amended.  The Value-Type Resolver always returns, never raises, and
    its value is one of text, decimal, boolean, datetime and error; whatever
    exception its body raises is printed and turned into "error".  A feature
    without a [name] resolves to "error".  On a feature that has a [name] it
    follows the ordered rules of the specification ([value_type_rule]), with
    [dataType] compared after upper-casing and a boolean first code resolved
    to "decimal" like an integer or a float. *)
Theorem determine_value_type_rules :
  (∀ feature, ∃ out vt,
      determine_value_type feature = (out, Ok vt) ∧ vt ∈ value_types) ∧
  (∀ feature out e,
      determine_value_type_try feature = (out, Raise e) →
      determine_value_type feature =
        ((out ++ [ErrorDeterminingValueType e])%list, Ok "error")) ∧
  (∀ d, dict_get "name" d = None →
        result (determine_value_type (JDict d)) = Ok "error") ∧
  (∀ d name vt,
      dict_get "name" d = Some name → value_type_rule d vt →
      result (determine_value_type (JDict d)) = Ok vt).
Proof.
  split; [exact determine_value_type_total|].
  split; [|split; [|exact value_type_rule_sound]].
  - intros feature out e E. unfold determine_value_type.
    by rewrite try_except_any, E.
  - intros d Hname. unfold determine_value_type, determine_value_type_try.
    by py_eval.
Qed.

Lemma determine_value_type_rules_witness :
  dict_get "name" feature_smoker = Some (JStr "smoker") ∧
  value_type_rule feature_smoker "decimal" ∧
  result (determine_value_type (JDict feature_smoker)) = Ok "decimal".
Proof.
  assert (Hrule : value_type_rule feature_smoker "decimal").
  { apply (rule2_int_code _ 1).
    - by exists "Nominal".
    - by eexists _, _, _. }
  split; [reflexivity|]. split; [exact Hrule|].
  exact (proj2 (proj2 (proj2 determine_value_type_rules)) feature_smoker _ _
           eq_refl Hrule).
Defined.

(** C9.  A NOMINAL feature whose first concept code is [True] or [False]
    resolves to "decimal": the numeric test is [isinstance(code, (int,
    float))], and a Python [bool] is an [int]. *)
Theorem nominal_boolean_code_is_decimal d name b :
  dict_get "name" d = Some name →
  data_type_is d "NOMINAL" →
  first_code_is d (JBool b) →
  determine_value_type (JDict d) = ([], Ok "decimal").
Proof.
  intros Hname Hdt Hcode.
  unfold determine_value_type, determine_value_type_try.
  unfold data_type_is, first_code_is in *. destruct_exists. by py_eval.
Qed.

Lemma nominal_boolean_code_is_decimal_witness :
  determine_value_type (JDict feature_deceased) = ([], Ok "decimal").
Proof.
  apply (nominal_boolean_code_is_decimal feature_deceased
           (JStr "deceased") true).
  - reflexivity.
  - by exists "NOMINAL".
  - by eexists _, _, _.
Defined.

(** ** Upper-casing of [dataType] *)

Lemma dict_get_set_eq k v d : dict_get k (dict_set k v d) = Some v.
Proof.
  induction d as [|[k' v'] d IH]; cbn.
  - by rewrite String.eqb_refl.
  - destruct (String.eqb_spec k k') as [->|Hne]; cbn.
    + by rewrite String.eqb_refl.
    + by destruct (String.eqb_spec k k').
Qed.

Lemma dict_get_set_ne k k' v d :
  k ≠ k' → dict_get k' (dict_set k v d) = dict_get k' d.
Proof.
  intros Hne. induction d as [|[k'' v''] d IH]; cbn.
  - by destruct (String.eqb_spec k' k) as [->|].
  - destruct (String.eqb_spec k k'') as [->|Hne']; cbn.
    + destruct (String.eqb_spec k' k'') as [->|]; [done|done].
    + by rewrite IH.
Qed.

Lemma upper_char_idemp c : upper_char (upper_char c) = upper_char c.
Proof. by destruct c as [[] [] [] [] [] [] [] []]. Qed.

Lemma upper_string_idemp s : upper_string (upper_string s) = upper_string s.
Proof. induction s as [|c s IH]; cbn; [done|]. by rewrite upper_char_idemp, IH. Qed.

(** The resolver reads a feature through three keys only, and [dataType]
    only through its upper-cased form. *)
Lemma determine_value_type_ext d d' :
  dict_get "name" d = dict_get "name" d' →
  dict_get "valueSet" d = dict_get "valueSet" d' →
  upper (default (JStr "") (dict_get "dataType" d)) =
    upper (default (JStr "") (dict_get "dataType" d')) →
  determine_value_type (JDict d) = determine_value_type (JDict d').
Proof.
  intros Hn Hv Hd. unfold determine_value_type, determine_value_type_try.
  cbn [getitem get contains]. rewrite Hn, Hv.
  destruct (dict_get "name" d'); [|done].
  by rewrite !bind_lift_Ok, Hd.
Qed.

Lemma for_each_ext {A} (f g : value → M (list A)) items :
  (∀ x, f x = g x) → for_each f items = for_each g items.
Proof. intros Hfg. induction items as [|x items IH]; cbn; [done|]. by rewrite Hfg, IH. Qed.

Lemma extract_feature_categories_ext table d d' :
  dict_get "name" d = dict_get "name" d' →
  dict_get "valueSet" d = dict_get "valueSet" d' →
  upper (default (JStr "") (dict_get "dataType" d)) =
    upper (default (JStr "") (dict_get "dataType" d')) →
  extract_feature_categories table (JDict d) =
    extract_feature_categories table (JDict d').
Proof.
  intros Hn Hv Hd. unfold extract_feature_categories.
  cbn [getitem get contains]. rewrite !bind_lift_Ok, Hv, Hd.
  assert (∀ c, extract_category table (JDict d) c =
               extract_category table (JDict d') c) as Hc.
  { intros c. unfold extract_category. cbn [getitem get]. by rewrite Hn. }
  apply bind_ext; intros data_type. apply bind_ext; intros [|]; [|done].
  do 3 (apply bind_ext; intros ?). apply for_each_ext, Hc.
Qed.

Lemma with_upper_dataType_dict d :
  ∃ d', with_upper_dataType (JDict d) = JDict d' ∧
        dict_get "name" d' = dict_get "name" d ∧
        dict_get "valueSet" d' = dict_get "valueSet" d ∧
        upper (default (JStr "") (dict_get "dataType" d')) =
          upper (default (JStr "") (dict_get "dataType" d)).
Proof.
  cbn. destruct (dict_get "dataType" d) as [v|] eqn:E.
  2: { exists d. by rewrite E. }
  destruct v; try (exists d; by rewrite E).
  eexists. split; [done|].
  rewrite !dict_get_set_ne by done. rewrite dict_get_set_eq.
  cbn. by rewrite upper_string_idemp.
Qed.

(** C10.  [dataType] is matched case-insensitively.  The resolver returns
    (and prints) the same for a feature and for that feature with its
    [dataType] upper-cased, and so does the Category Extractor for a whole
    list of features; e.g. "numeric", "Boolean" and "dateTime" resolve as
    NUMERIC, BOOLEAN and DATETIME, and a "nominal" feature gets its category
    rows. *)
Theorem dataType_case_insensitive :
  (∀ feature,
      determine_value_type (with_upper_dataType feature) =
        determine_value_type feature) ∧
  (∀ table es fs,
      extract_categories
        (JDict (dict_set "features" (JList (with_upper_dataType <$> fs)) es))
        table =
      extract_categories (JDict (dict_set "features" (JList fs) es)) table) ∧
  (∀ name,
      result (determine_value_type
                (JDict [("name", name); ("dataType", JStr "numeric")])) =
        Ok "decimal" ∧
      result (determine_value_type
                (JDict [("name", name); ("dataType", JStr "Boolean")])) =
        Ok "boolean" ∧
      result (determine_value_type
                (JDict [("name", name); ("dataType", JStr "dateTime")])) =
        Ok "datetime") ∧
  determine_value_type (feature_sex "nominal") = ([], Ok "text") ∧
  extract_categories (JDict [("features", JList [feature_sex "nominal"])])
    "demo" =
  extract_categories (JDict [("features", JList [feature_sex "NOMINAL"])])
    "demo".
Proof.
  split; [|split; [|split; [|split]]]; try done.
  - intros [| | | | | |d]; try done.
    destruct (with_upper_dataType_dict d) as (d' & -> & Hn & Hv & Hd).
    by apply determine_value_type_ext.
  - intros table es fs. unfold extract_categories.
    cbn [get]. rewrite !dict_get_set_eq. cbn [default from_option id].
    rewrite !bind_lift_Ok. cbn [iter]. rewrite !bind_lift_Ok. f_equal.
    induction fs as [|f fs IH]; [done|].
    cbn [fmap list_fmap for_each]. fold (fmap with_upper_dataType fs).
    rewrite IH. f_equal.
    destruct f as [| | | | | |d]; try done.
    destruct (with_upper_dataType_dict d) as (d' & -> & Hn & Hv & Hd).
    by apply extract_feature_categories_ext.
Qed.

(** ** The Entity-Type Resolver *)

Lemma eqb_JStr v t : eqb v (JStr t) = true ↔ v = JStr t.
Proof.
  destruct v; cbn; try (split; [done|discriminate]).
  rewrite String.eqb_eq. split; [by intros ->|by intros [= ->]].
Qed.


Lemma next_where_first (cond : value → M bool) (p : dict → bool) items x dflt :
  (∀ d, cond (JDict d) = ret (p d)) →
  first_dict p items x →
  next_where cond items dflt = ret (JDict x).
Proof.
  intros Hcond (before & after & -> & Hbefore & Hx).
  induction Hbefore as [|y before (d & -> & Hd) _ IH]; cbn.
  - by rewrite Hcond, Hx, bind_ret.
  - by rewrite Hcond, Hd, bind_ret.
Qed.








Lemma get_entity_type_total entries :
  ∃ out v, get_entity_type entries = (out, Ok v).
Proof.
  unfold get_entity_type. rewrite try_except_any.
  destruct (get_entity_type_try entries) as [out [v|e]]; by eexists _, _.
Qed.





(** ** The Variable Extractor *)

Lemma for_each_Ok {A} (body : value → M (list A)) (g : value → list A) items :
  Forall (λ x, result (body x) = Ok (g x)) items →
  for_each body items =
    (concat ((λ x, printed (body x)) <$> items), Ok (concat (g <$> items))).
Proof.
  induction 1 as [|x items Hx _ IH]; [done|].
  cbn [for_each fmap list_fmap concat].
  destruct (body x) as [out r]. cbn in Hx. subst r.
  rewrite bind_Ok, IH, bind_Ok. cbn. by rewrite app_nil_r.
Qed.

Lemma strings_of_texts l :
  forallb isinstance_str l = true → strings_of l = Ok (texts (JList l)).
Proof.
  induction l as [|x l IH]; [done|]. cbn.
  destruct x; try done. cbn. intros Hl. by rewrite (IH Hl).
Qed.

Lemma extract_variable_spec repr table entity_type f :
  well_formed_feature f = true →
  extract_variable repr table entity_type f =
    match variable_row_of repr table entity_type f with
    | Some row => (printed (determine_value_type f), Ok [row])
    | None => ([MissingRequiredKey (KeyError (JStr "name")) f], Ok [])
    end.
Proof.
  destruct f as [| | | | | |d]; try done. cbn [well_formed_feature].
  intros Hwf. unfold extract_variable, variable_row_of, label_of.
  cbn [getitem get]. destruct (dict_get "name" d) as [name|]; [|done].
  rewrite bind_lift_Ok. unfold resolved_value_type.
  destruct (determine_value_type_total (JDict d)) as (out & vt & -> & _).
  rewrite bind_Ok, !bind_lift_Ok. unfold join.
  destruct (default (JList []) (dict_get "generatedDescription" d));
    try done.
  cbn [iter]. rewrite (strings_of_texts _ Hwf), bind_lift_Ok.
  cbn. by rewrite app_nil_r.
Qed.

Lemma concat_option_list {A B} (f : A → option B) l :
  concat ((λ x, option_list (f x)) <$> l) = omap f l.
Proof.
  induction l as [|x l IH]; [done|]. cbn. rewrite IH. by destruct (f x).
Qed.

Lemma extract_variables_spec repr es fs os table entity_type :
  default (JList []) (dict_get "features" es) = JList fs →
  default (JList []) (dict_get "outcomes" es) = JList os →
  Forall (λ f, well_formed_feature f = true) (fs ++ os) →
  extract_variables repr (JDict es) table entity_type =
    (concat ((λ f, printed (extract_variable repr table entity_type f))
               <$> fs ++ os),
     Ok (omap (variable_row_of repr table entity_type) (fs ++ os))).
Proof.
  intros Hfs Hos Hwf. unfold extract_variables. cbn [get].
  rewrite Hfs, Hos, !bind_lift_Ok. cbn [iter_add]. rewrite bind_lift_Ok.
  rewrite (for_each_Ok _
             (λ f, option_list (variable_row_of repr table entity_type f))).
  - by rewrite try_except_Ok, concat_option_list.
  - eapply Forall_impl; [exact Hwf|]. intros f Hf. cbn beta in Hf.
    rewrite (extract_variable_spec _ _ _ _ Hf).
    by destruct (variable_row_of repr table entity_type f).
Qed.

(** C4.  On a descriptor whose features and outcomes are well-formed
    records, the Variable Extractor returns, in the order of [features]
    followed by [outcomes], the row
    (table, name, resolved value type, entity type, "", label, "$('name')")
    of every entry that has a [name]; an entry without one gives no row and a
    printed error, and does not stop the others.  The descriptor with the
    single feature [age] of type NUMERIC gives exactly one row. *)
Theorem extract_variables_rows repr es fs os table entity_type :
  default (JList []) (dict_get "features" es) = JList fs →
  default (JList []) (dict_get "outcomes" es) = JList os →
  Forall (λ f, well_formed_feature f = true) (fs ++ os) →
  let run := extract_variables repr (JDict es) table entity_type in
  result run = Ok (omap (variable_row_of repr table entity_type) (fs ++ os)) ∧
  (∀ f, f ∈ fs ++ os →
        variable_row_of repr table entity_type f = None →
        MissingRequiredKey (KeyError (JStr "name")) f ∈ printed run) ∧
  extract_variables repr
    (JDict [("features", JList [feature_age]); ("outcomes", JList [])])
    "demo" entity_type =
  ([], Ok [Variable_row "demo" (JStr "age") "decimal" entity_type "" ""
             "$('age')"]).
Proof.
  intros Hfs Hos Hwf run. subst run.
  rewrite (extract_variables_spec _ _ _ _ _ _ Hfs Hos Hwf).
  split; [done|]. split; [|done].
  intros f Hin Hnone. cbn [printed fst].
  apply list_elem_of_In, in_concat.
  exists (printed (extract_variable repr table entity_type f)). split.
  - apply list_elem_of_In, list_elem_of_fmap. eauto.
  - rewrite Forall_forall in Hwf.
    rewrite (extract_variable_spec _ _ _ _ (Hwf _ Hin)), Hnone. by left.
Qed.

Lemma extract_variables_rows_witness :
  result (extract_variables (λ _, "") (JDict entries_demo) "demo"
            (JStr "participant")) =
    Ok [Variable_row "demo" (JStr "age") "decimal" (JStr "participant") ""
          "" "$('age')";
        Variable_row "demo" (JStr "sex") "text" (JStr "participant") ""
          "" "$('sex')"].
Proof.
  refine (proj1 (extract_variables_rows (λ _, "") entries_demo
                   [feature_age; JDict [("dataType", JStr "NUMERIC")]]
                   [feature_sex "NOMINAL"] "demo" (JStr "participant")
                   eq_refl eq_refl _)).
  by repeat constructor.
Defined.

(** ** The Category Extractor *)

Lemma extract_category_spec table d c :
  is_dict c = true →
  extract_category table (JDict d) c =
    match dict_get "name" d with
    | Some name =>
        ([], Ok [Category_row table name (code_of c) "" 0 (display_of c)])
    | None => ([MissingConceptKey (KeyError (JStr "name")) JNull], Ok [])
    end.
Proof.
  destruct c as [| | | | | |cd]; try done. intros _.
  unfold extract_category. cbn [getitem get].
  destruct (dict_get "name" d) as [name|]; [done|].
  by rewrite bind_lift_Raise, try_except_raise.
Qed.

Lemma extract_feature_categories_spec table f :
  well_formed_categories f = true →
  ∃ out, extract_feature_categories table f =
           (out, Ok (category_rows_of table f)).
Proof.
  destruct f as [| | | | | |d]; try done.
  unfold well_formed_categories, category_rows_of, has_categories,
    concepts_of, extract_feature_categories.
  cbn [get contains getitem]. rewrite bind_lift_Ok.
  destruct (default (JStr "") (dict_get "dataType" d)) as [| | | |s| |];
    try done.
  cbn [isinstance_str upper andb]. rewrite bind_lift_Ok.
  destruct (upper_string s =? "NOMINAL")%string; cbn [andb];
    [|intros _; rewrite bind_ret; by eexists].
  rewrite bind_lift_Ok.
  destruct (dict_get "valueSet" d) as [vs|]; cbn [bool_decide];
    [|intros _; by eexists].
  rewrite bool_decide_eq_true_2 by eauto. cbn [negb orb].
  destruct vs as [| | | | | |vd]; try done.
  rewrite bind_lift_Ok. cbn [get]. rewrite bind_lift_Ok.
  destruct (default (JList []) (dict_get "concept" vd)) as [| | | | |cs|];
    try done.
  intros Hcs. cbn [iter]. rewrite bind_lift_Ok.
  rewrite (for_each_Ok _
    (λ c, match dict_get "name" d with
          | Some name =>
              [Category_row table name (code_of c) "" 0 (display_of c)]
          | None => []
          end)).
  - eexists. f_equal. f_equal. destruct (dict_get "name" d) as [name|].
    + induction cs as [|c cs IH]; [done|]. cbn. f_equal. apply IH.
      cbn in Hcs. by apply andb_prop in Hcs as [_ ?].
    + clear Hcs. by induction cs.
  - apply Forall_forall. intros c Hc.
    rewrite forallb_forall in Hcs.
    rewrite extract_category_spec by (by apply Hcs, list_elem_of_In).
    by destruct (dict_get "name" d).
Qed.

Lemma extract_categories_spec es fs table :
  default (JList []) (dict_get "features" es) = JList fs →
  Forall (λ f, well_formed_categories f = true) fs →
  result (extract_categories (JDict es) table) =
    Ok (concat (category_rows_of table <$> fs)).
Proof.
  intros Hfs Hwf. unfold extract_categories. cbn [get].
  rewrite Hfs, bind_lift_Ok. cbn [iter]. rewrite bind_lift_Ok.
  rewrite (for_each_Ok _ (category_rows_of table)); [done|].
  eapply Forall_impl; [exact Hwf|]. intros f Hf. cbn beta in Hf.
  by destruct (extract_feature_categories_spec table f Hf) as [out ->].
Qed.

(** C5.  On a descriptor whose features are well-formed records, the
    Category Extractor returns, feature by feature and concept by concept in
    order, the row (table, feature name, code, "", 0, display) of every
    concept of every feature whose [dataType] is NOMINAL and that has a
    [valueSet] (and a [name]), a missing code or display being [""].  Only [features] is
    read: whatever [outcomes] holds, the output is the same.  The feature
    [sex] with concepts M/Male and F/Female gives exactly two rows. *)
Theorem extract_categories_rows es fs table :
  default (JList []) (dict_get "features" es) = JList fs →
  Forall (λ f, well_formed_categories f = true) fs →
  result (extract_categories (JDict es) table) =
    Ok (concat (category_rows_of table <$> fs)) ∧
  (∀ outcomes,
      extract_categories (JDict (dict_set "outcomes" outcomes es)) table =
        extract_categories (JDict es) table) ∧
  extract_categories
    (JDict [("features", JList [feature_sex "NOMINAL"]);
            ("outcomes", JList [feature_sex "NOMINAL"])]) table =
  ([], Ok [Category_row table (JStr "sex") (JStr "M") "" 0 (JStr "Male");
           Category_row table (JStr "sex") (JStr "F") "" 0 (JStr "Female")]).
Proof.
  intros Hfs Hwf. split; [by apply extract_categories_spec|].
  split; [|done].
  intros outcomes. unfold extract_categories. cbn [get].
  by rewrite dict_get_set_ne.
Qed.

Lemma extract_categories_rows_witness :
  result (extract_categories (JDict entries_sex) "demo") =
    Ok [Category_row "demo" (JStr "sex") (JStr "M") "" 0 (JStr "Male");
        Category_row "demo" (JStr "sex") (JStr "F") "" 0 (JStr "Female")].
Proof.
  refine (proj1 (extract_categories_rows entries_sex
                   [feature_age; feature_sex "NOMINAL"] "demo" eq_refl _)).
  by repeat constructor.
Defined.

(** ** Uniqueness of names and of (variable, code) pairs *)

Lemma variable_names repr table entity_type fs :
  v_name <$> omap (variable_row_of repr table entity_type) fs =
    feature_names fs.
Proof.
  unfold feature_names. induction fs as [|f fs IH]; [done|]. cbn.
  destruct f as [| | | | | |d]; try done. cbn.
  destruct (dict_get "name" d); cbn; [by rewrite IH|done].
Qed.

Lemma category_keys_name table f key :
  key ∈ category_key <$> category_rows_of table f →
  ∃ d, f = JDict d ∧ dict_get "name" d = Some key.1.
Proof.
  destruct f as [| | | | | |d]; cbn; try by intros ?%elem_of_nil.
  destruct (has_categories d); [|by intros ?%elem_of_nil].
  destruct (dict_get "name" d) as [name|] eqn:E; [|by intros ?%elem_of_nil].
  rewrite <- list_fmap_compose.
  intros (c & -> & _)%list_elem_of_fmap. by exists d.
Qed.

Lemma category_keys_NoDup table f :
  NoDup (concept_codes f) → NoDup (category_key <$> category_rows_of table f).
Proof.
  destruct f as [| | | | | |d]; cbn; try (intros _; apply NoDup_nil_2).
  destruct (has_categories d); [|intros _; apply NoDup_nil_2].
  destruct (dict_get "name" d) as [name|]; [|intros _; apply NoDup_nil_2].
  intros Hcodes. rewrite <- list_fmap_compose.
  change (NoDup ((λ c, (name, code_of c)) <$> concepts_of d)).
  rewrite (list_fmap_compose code_of (pair name)).
  by apply (NoDup_fmap_2 (pair name)).
Qed.

Lemma category_keys_unique table fs :
  NoDup (feature_names fs) →
  Forall (λ f, NoDup (concept_codes f)) fs →
  NoDup (category_key <$> concat (category_rows_of table <$> fs)).
Proof.
  induction fs as [|f fs IH]; [intros; apply NoDup_nil_2|].
  intros Hnames Hcodes. apply Forall_cons in Hcodes as [Hf Hfs].
  cbn [fmap list_fmap concat]. rewrite fmap_app. apply NoDup_app.
  assert (NoDup (feature_names fs)) as Hrest.
  { unfold feature_names in *. cbn in Hnames.
    destruct f as [| | | | | |d]; try done.
    destruct (dict_get "name" d); [by apply NoDup_cons in Hnames as [_ ?]|done]. }
  split; [by apply category_keys_NoDup|]. split; [|by apply IH].
  intros key Hkey Hin. apply category_keys_name in Hkey as (d & -> & Hname).
  unfold feature_names in Hnames. cbn in Hnames. rewrite Hname in Hnames.
  apply NoDup_cons in Hnames as [Hnotin _]. apply Hnotin.
  apply list_elem_of_fmap in Hin as (row & -> & Hrow).
  apply list_elem_of_In, in_concat in Hrow as (rows & Hrows & Hrow).
  apply list_elem_of_In, list_elem_of_fmap in Hrows as (f' & -> & Hf').
  destruct (category_keys_name table f' (category_key row)) as (d' & -> & Hn').
  { apply list_elem_of_fmap. exists row. by rewrite list_elem_of_In. }
  apply list_elem_of_omap. by exists (JDict d').
Qed.

(** C6, as stated, fails: the mapper removes no duplicates.  Two features of
    the same name give two Variables rows of that name, and their concepts
    give the same (variable, code) pairs twice. *)
Lemma duplicate_names_are_kept :
  ∃ variables categories,
    result (extract_variables (λ _, "") (JDict entries_twice) "demo"
              (JStr "participant")) = Ok variables ∧
    result (extract_categories (JDict entries_twice) "demo") = Ok categories ∧
    ¬ NoDup (v_name <$> variables) ∧
    ¬ NoDup (category_key <$> categories).
Proof.
  eexists _, _. split; [reflexivity|]. split; [reflexivity|].
  split; intros Hdup; cbn in Hdup.
  - apply NoDup_cons in Hdup as [Hnotin _]. apply Hnotin. by left.
  - apply NoDup_cons in Hdup as [Hnotin _]. apply Hnotin.
    right. by left.
Qed.

(** C6, amended.  The Variables rows carry, in order, exactly the names of
    the entries of [features] followed by [outcomes]; so when those names
    are pairwise distinct, every variable row's name is unique.  When
    moreover the names of the features are pairwise distinct and so are the
    concept codes within each feature, every category row's
    (variable, code) pair is unique. *)
Theorem unique_input_names_give_unique_rows repr es fs os table entity_type :
  default (JList []) (dict_get "features" es) = JList fs →
  default (JList []) (dict_get "outcomes" es) = JList os →
  Forall (λ f, well_formed_feature f = true) (fs ++ os) →
  Forall (λ f, well_formed_categories f = true) fs →
  ∃ variables categories,
    result (extract_variables repr (JDict es) table entity_type) =
      Ok variables ∧
    result (extract_categories (JDict es) table) = Ok categories ∧
    v_name <$> variables = feature_names (fs ++ os) ∧
    (NoDup (feature_names (fs ++ os)) → NoDup (v_name <$> variables)) ∧
    (NoDup (feature_names fs) →
     Forall (λ f, NoDup (concept_codes f)) fs →
     NoDup (category_key <$> categories)).
Proof.
  intros Hfs Hos Hwf Hwfc. eexists _, _.
  rewrite (extract_variables_spec _ _ _ _ _ _ Hfs Hos Hwf).
  rewrite (extract_categories_spec _ _ _ Hfs Hwfc).
  split; [done|]. split; [done|]. rewrite variable_names.
  split; [done|]. split; [done|]. apply category_keys_unique.
Qed.

Lemma unique_input_names_give_unique_rows_witness :
  ∃ variables categories,
    result (extract_variables (λ _, "") (JDict entries_sex) "demo"
              (JStr "participant")) = Ok variables ∧
    result (extract_categories (JDict entries_sex) "demo") = Ok categories ∧
    v_name <$> variables =
      feature_names ([feature_age; feature_sex "NOMINAL"] ++
                     [feature_sex "NOMINAL"]) ∧
    (NoDup (feature_names ([feature_age; feature_sex "NOMINAL"] ++
                           [feature_sex "NOMINAL"])) →
     NoDup (v_name <$> variables)) ∧
    (NoDup (feature_names [feature_age; feature_sex "NOMINAL"]) →
     Forall (λ f, NoDup (concept_codes f))
       [feature_age; feature_sex "NOMINAL"] →
     NoDup (category_key <$> categories)).
Proof.
  apply (unique_input_names_give_unique_rows (λ _, "") entries_sex
           [feature_age; feature_sex "NOMINAL"] [feature_sex "NOMINAL"]
           "demo" (JStr "participant") eq_refl eq_refl);
    by repeat constructor.
Defined.

(** ** The Availability Encoder *)

Section EncoderProperties.
Import Encoder.

Lemma validate_dictionary_total cols dictionary :
  ∃ out, validate_dictionary cols dictionary = (out, Ok tt).
Proof.
  unfold validate_dictionary. rewrite try_except_any.
  match goal with |- context [match ?m with _ => _ end] =>
    destruct m as [out [[]|e]] end; by eexists.
Qed.

Lemma transform_data_result df dictionary :
  result (transform_data df dictionary) =
    Ok (fold_left
          (λ df col,
             if bool_decide (col ∉ BASE_COLUMNS)
             then assign col (map (λ x, astype_int (notna x))) df
             else df)
          (columns df) df).
Proof.
  unfold transform_data.
  destruct dictionary as [d|].
  - destruct (validate_dictionary_total (columns df) d) as [out ->].
    by rewrite bind_Ok, bind_print.
  - by rewrite bind_ret, bind_print.
Qed.

Lemma binarize_columns cols (df : frame) :
  NoDup cols →
  fold_left
    (λ df col,
       if bool_decide (col ∉ BASE_COLUMNS)
       then assign col (map (λ x, astype_int (notna x))) df
       else df)
    cols df =
  map (λ c, if bool_decide (c.1 ∈ cols) then encode_column c else c) df.
Proof.
  intros Hcols. revert df.
  induction Hcols as [|col cols Hnotin _ IH]; intros df; cbn [fold_left].
  { rewrite <- (map_id df) at 1. apply map_ext. intros c.
    rewrite bool_decide_eq_false_2; [done|apply not_elem_of_nil]. }
  rewrite IH. clear IH.
  assert (∀ label,
            label ≠ col →
            bool_decide (label ∈ cols) = bool_decide (label ∈ col :: cols))
    as Hne.
  { intros label Hlabel. apply bool_decide_ext. rewrite elem_of_cons.
    split; [by right|by intros [?|?]]. }
  case_bool_decide as Hbase.
  - unfold assign. rewrite map_map. apply map_ext. intros [label cells].
    cbn [fst snd]. destruct (String.eqb_spec label col) as [->|Hlabel].
    + cbn [fst]. rewrite (bool_decide_eq_false_2 (col ∈ cols)) by done.
      rewrite (bool_decide_eq_true_2 (col ∈ col :: cols)) by by left.
      unfold encode_column. cbn [fst snd].
      by rewrite (bool_decide_eq_false_2 (col ∈ BASE_COLUMNS)).
    + cbn [fst]. by rewrite (Hne label).
  - apply map_ext. intros [label cells]. cbn [fst].
    destruct (decide (label = col)) as [->|Hlabel].
    + rewrite (bool_decide_eq_false_2 (col ∈ cols)) by done.
      rewrite (bool_decide_eq_true_2 (col ∈ col :: cols)) by by left.
      unfold encode_column. cbn [fst].
      rewrite (bool_decide_eq_true_2 (col ∈ BASE_COLUMNS)); [done|].
      by destruct (decide (col ∈ BASE_COLUMNS)).
    + cbn [fst]. by rewrite (Hne label).
Qed.

Lemma transform_data_spec df dictionary :
  NoDup (columns df) →
  result (transform_data df dictionary) = Ok (map encode_column df).
Proof.
  intros Hcols. rewrite transform_data_result, binarize_columns by done.
  f_equal. apply map_ext_in. intros c Hc.
  rewrite bool_decide_eq_true_2; [done|].
  apply list_elem_of_In, in_map, Hc.
Qed.

Lemma strings_Str names : strings (Str <$> names) = names.
Proof. induction names as [|n names IH]; [done|]. cbn. by f_equal. Qed.

Lemma forallb_is_str names : forallb is_str (Str <$> names) = true.
Proof. by induction names. Qed.

Lemma validate_dictionary_names cols names :
  validate_dictionary cols (Ok (Str <$> names)) =
    (let (in_dict, in_parquet) := mismatches cols names in
     if bool_decide (in_dict = ∅ ∧ in_parquet = ∅)
     then [ValidationSuccessful]
     else ValidationErrors ::
          (if bool_decide (in_dict = ∅) then []
           else [ColumnsMissingInXLS in_dict]) ++
          (if bool_decide (in_parquet = ∅) then []
           else [ColumnsMissingInParquet in_parquet]) ++
          [Proceeding],
     Ok tt).
Proof.
  unfold validate_dictionary, mismatches.
  rewrite bind_lift_Ok. cbv beta zeta.
  rewrite strings_Str, forallb_is_str. cbn [negb].
  rewrite !orb_false_r.
  set (checked := list_to_set (filter _ cols) : gset string).
  set (in_dict := checked ∖ list_to_set names).
  set (in_parquet := list_to_set names ∖ checked).
  repeat case_bool_decide; cbn [orb];
    rewrite ?bind_print, ?bind_ret, ?bind_lift_Ok; cbn [printed result fst snd];
    rewrite ?bind_print, ?bind_ret, ?bind_lift_Ok; cbn [printed result fst snd];
    try done; exfalso; tauto.
Qed.

(** C2.  On the column [null, "x", ""] the Availability Encoder writes
    [0, 1, 1], where the specification, and the comment of the code on its
    own loop (0 if empty, 1 if filled), have [0, 1, 0]: [notna] is false for
    a missing value only, and the empty string is not one. *)
Lemma empty_string_counts_as_filled :
  result (transform_data [("a", [NA; Str "x"; Str ""])] None) =
    Ok [("a", [Int 0; Int 1; Int 1])] ∧
  result (transform_data [("a", [NA; Str "x"; Str ""])] None) ≠
    Ok [("a", [Int 0; Int 1; Int 0])].
Proof. by split. Qed.

(** What the loop computes, for every table whose column labels are
    pairwise distinct, with or without a dictionary: every cell of every
    non-identifier column becomes 0 if it was missing and 1 if it held
    anything else; the identifier columns are passed through unchanged. *)
Theorem transform_data_marks_missing df dictionary :
  NoDup (columns df) →
  result (transform_data df dictionary) = Ok (map encode_column df) ∧
  (∀ col cells,
      col ∉ BASE_COLUMNS →
      encode_column (col, cells) =
        (col, map (λ x, match x with NA => Int 0 | _ => Int 1 end) cells)) ∧
  (∀ col cells, col ∈ BASE_COLUMNS → encode_column (col, cells) = (col, cells)) ∧
  encode_column ("a", [NA; Str "x"; Str ""]) = ("a", [Int 0; Int 1; Int 1]).
Proof.
  intros Hcols. split; [by apply transform_data_spec|].
  split; [|split; [|done]]; intros col cells Hcol; unfold encode_column;
    cbn [fst snd].
  - rewrite bool_decide_eq_false_2 by done. f_equal.
    apply map_ext. by intros [].
  - by rewrite bool_decide_eq_true_2.
Qed.

Lemma transform_data_marks_missing_witness :
  result (transform_data frame_visits None) =
    Ok [("pid", [Str "p1"; NA; Str ""]);
        ("a", [Int 0; Int 1; Int 1]);
        ("b", [Int 1; Int 0; Int 1])].
Proof.
  refine (proj1 (transform_data_marks_missing frame_visits None _)).
  apply (bool_decide_unpack (NoDup (columns frame_visits))).
  vm_compute. exact I.
Defined.







End EncoderProperties.

(** ** The Format Converter *)

Section ConverterProperties.
Import Encoder Converter.









End ConverterProperties.

(* ===================================================================== *)
(** * Further properties of the code *)
(* ===================================================================== *)

Section MoreMonadLaws.
Context {msg : Type}.

Lemma printed_bind {A B} (m : Py.M msg A) (k : A → Py.M msg B) :
  printed (bind m k) =
    printed m ++ match result m with Ok a => printed (k a) | Raise _ => [] end.
Proof.
  destruct m as [out [a|e]]; unfold bind; cbn [printed result fst snd].
  - by destruct (k a).
  - by rewrite app_nil_r.
Qed.

Lemma printed_lift {A} (r : res A) : printed (lift r : Py.M msg A) = [].
Proof. done. Qed.
End MoreMonadLaws.

(** ** What the resolvers print *)

Lemma determine_value_type_try_silent feature :
  printed (determine_value_type_try feature) = [].
Proof.
  unfold determine_value_type_try.
  destruct feature; py_eval; try done.
  repeat (py_case; py_eval; try done).
Qed.

Lemma determine_value_type_cases feature :
  (printed (determine_value_type feature) = [] ∧
   ∃ vt, result (determine_value_type feature) = Ok vt ∧
         vt ∈ ["text"; "decimal"; "boolean"; "datetime"]) ∨
  (∃ e, determine_value_type feature =
          ([ErrorDeterminingValueType e], Ok "error")).
Proof.
  unfold determine_value_type. rewrite try_except_any.
  pose proof (determine_value_type_try_silent feature) as Hsilent.
  destruct (determine_value_type_try feature) as [out [vt|e]] eqn:E.
  - left. apply determine_value_type_try_Ok in E as [-> Hvt]. eauto.
  - right. exists e. cbn in Hsilent. by subst out.
Qed.

(** X1.  The Value-Type Resolver prints a line exactly when it answers
    "error": a run that resolves to text, decimal, boolean or datetime is
    silent, and a run that answers "error" has printed one line, the
    exception that caused it. *)
Theorem determine_value_type_prints_iff_error feature :
  (printed (determine_value_type feature) = [] ∧
   ∃ vt, result (determine_value_type feature) = Ok vt ∧
         vt ∈ ["text"; "decimal"; "boolean"; "datetime"]) ∨
  (∃ e, determine_value_type feature =
          ([ErrorDeterminingValueType e], Ok "error")).
Proof. apply determine_value_type_cases. Qed.

(** X2.  For a NOMINAL feature only the first concept counts: the resolver
    answers, and prints, as it does for the feature reduced to its name and
    that one concept.  The other concepts and the other keys of the feature
    and of its [valueSet] are never looked at. *)
Theorem only_first_concept_is_inspected d name vd c cs :
  dict_get "name" d = Some name →
  data_type_is d "NOMINAL" →
  dict_get "valueSet" d = Some (JDict vd) →
  dict_get "concept" vd = Some (JList (c :: cs)) →
  determine_value_type (JDict d) =
    determine_value_type
      (JDict [("name", name); ("dataType", JStr "NOMINAL");
              ("valueSet", JDict [("concept", JList [c])])]).
Proof.
  intros Hname (s & Hs & Hupper) Hvs Hconcept.
  unfold determine_value_type, determine_value_type_try. by py_eval.
Qed.

Lemma only_first_concept_is_inspected_witness :
  determine_value_type (feature_sex "Nominal") =
    determine_value_type
      (JDict [("name", JStr "sex"); ("dataType", JStr "NOMINAL");
              ("valueSet",
               JDict [("concept",
                       JList [JDict [("code", JStr "M");
                                     ("display", JStr "Male")]])])]).
Proof.
  eapply (only_first_concept_is_inspected _ (JStr "sex")).
  - reflexivity.
  - by exists "Nominal".
  - reflexivity.
  - reflexivity.
Defined.

(** X3.  A first concept that has no [code] makes a NOMINAL feature "text":
    the code defaults to the empty string, which is a string.  Nothing is
    printed. *)
Theorem first_concept_without_code_is_text d name vd c cs :
  dict_get "name" d = Some name →
  data_type_is d "NOMINAL" →
  dict_get "valueSet" d = Some (JDict vd) →
  dict_get "concept" vd = Some (JList (JDict c :: cs)) →
  dict_get "code" c = None →
  determine_value_type (JDict d) = ([], Ok "text").
Proof.
  intros Hname (s & Hs & Hupper) Hvs Hconcept Hcode.
  unfold determine_value_type, determine_value_type_try. by py_eval.
Qed.

Lemma first_concept_without_code_is_text_witness :
  determine_value_type (JDict feature_blood_group) = ([], Ok "text").
Proof.
  eapply (first_concept_without_code_is_text _ (JStr "blood_group")).
  - reflexivity.
  - by exists "NOMINAL".
  - reflexivity.
  - reflexivity.
  - reflexivity.
Defined.

Lemma printed_bind_nil {A B} (m : M A) (k : A → M B) :
  printed m = [] → (∀ a, printed (k a) = []) → printed (bind m k) = [].
Proof.
  intros Hm Hk. rewrite printed_bind, Hm.
  destruct (result m); [apply Hk|done].
Qed.

Lemma next_where_silent (cond : value → M bool) items dflt :
  (∀ x, printed (cond x) = []) → printed (next_where cond items dflt) = [].
Proof.
  intros Hcond. induction items as [|x items IH]; [done|]. cbn [next_where].
  apply printed_bind_nil; [done|]. by intros [].
Qed.

Ltac silent :=
  lazymatch goal with
  | |- printed (bind _ _) = [] =>
      apply printed_bind_nil; [silent|intros ?; silent]
  | |- printed (next_where _ _ _) = [] =>
      apply next_where_silent; intros ?; silent
  | |- printed (if ?b then _ else _) = [] => destruct b; silent
  | |- _ => done
  end.

Lemma get_entity_type_try_silent entries :
  printed (get_entity_type_try entries) = [].
Proof. unfold get_entity_type_try. silent. Qed.

(** X4.  The Entity-Type Resolver prints at most one line, and only when it
    falls back: either it returns silently, or it has printed the exception
    that stopped it and returns "participant". *)
Theorem get_entity_type_prints_only_on_failure entries :
  (∃ v, get_entity_type entries = ([], Ok v)) ∨
  (∃ e, get_entity_type entries =
          ([ErrorDeterminingEntityType e], Ok (JStr "participant"))).
Proof.
  unfold get_entity_type. rewrite try_except_any.
  pose proof (get_entity_type_try_silent entries) as Hsilent.
  destruct (get_entity_type_try entries) as [out [v|e]]; cbn in Hsilent;
    subst out; [left|right]; by eexists.
Qed.

(** X5.  A target code that Python counts as false (0, 0.0, [False], the
    empty string, an empty list or dict) is treated as missing: with the
    feature present, the resolver prints that it cannot find the target code
    and returns "participant", whatever the concepts are, also when one of
    them has exactly that code. *)
Theorem false_target_code_is_missing es fs fd t :
  dict_get "features" es = Some (JList fs) →
  first_dict is_encounter_feature fs fd →
  target_code_of (JDict es) = Ok t →
  truthy t = false →
  get_entity_type (JDict es) =
    ([ErrorDeterminingEntityType (ValueError CannotFindTargetCode)],
     Ok (JStr "participant")).
Proof.
  intros Hfs Hfirst Ht Hfalse. unfold get_entity_type, get_entity_type_try.
  cbn [get]. rewrite Hfs. cbn [default from_option id].
  rewrite bind_lift_Ok. cbn [iter]. rewrite bind_lift_Ok.
  rewrite (next_where_first _ is_encounter_feature fs fd); [|done..].
  rewrite bind_ret.
  assert (truthy (JDict fd) = true) as ->.
  { destruct Hfirst as (_ & _ & _ & _ & Hp). unfold is_encounter_feature in Hp.
    apply eqb_JStr in Hp. by destruct fd. }
  cbn [negb]. by rewrite Ht, bind_lift_Ok, Hfalse.
Qed.

Lemma false_target_code_is_missing_witness :
  target_code_of (JDict entries_numbered_class) = Ok (JInt 0) ∧
  get_entity_type (JDict entries_numbered_class) =
    ([ErrorDeterminingEntityType (ValueError CannotFindTargetCode)],
     Ok (JStr "participant")).
Proof.
  split; [reflexivity|].
  eapply (false_target_code_is_missing entries_numbered_class _ _ (JInt 0)).
  - reflexivity.
  - eexists [], []. split; [reflexivity|]. by split.
  - reflexivity.
  - reflexivity.
Defined.

(** ** What the extractors raise *)

Section MoreMonadLaws2.
Context {msg : Type}.

Lemma result_bind {A B} (m : Py.M msg A) (k : A → Py.M msg B) :
  result (bind m k) =
    match result m with Ok a => result (k a) | Raise e => Raise e end.
Proof.
  destruct m as [out [a|e]]; unfold bind; cbn [result snd]; [|done].
  by destruct (k a).
Qed.

Lemma result_try_except {A} (m : Py.M msg A) handles (h : exn → Py.M msg A) :
  result (try_except m handles h) =
    match result m with
    | Ok a => Ok a
    | Raise e => if handles e then result (h e) else Raise e
    end.
Proof.
  destruct m as [out [a|e]]; unfold try_except; cbn [result snd]; [done|].
  destruct (handles e); [by destruct (h e)|done].
Qed.
End MoreMonadLaws2.

Lemma for_each_raises {A} (body : value → M (list A)) before x after e :
  Forall (λ y, ∃ rows, result (body y) = Ok rows) before →
  result (body x) = Raise e →
  result (for_each body (before ++ x :: after)) = Raise e.
Proof.
  intros Hbefore Hx. induction Hbefore as [|y before [rows Hy] _ IH];
    cbn [app for_each]; rewrite result_bind.
  - by rewrite Hx.
  - by rewrite Hy, result_bind, IH.
Qed.

Lemma extract_variable_Ok repr table entity_type f :
  well_formed_feature f = true →
  ∃ rows, result (extract_variable repr table entity_type f) = Ok rows.
Proof.
  intros Hwf. rewrite (extract_variable_spec _ _ _ _ Hwf).
  destruct (variable_row_of repr table entity_type f); by eexists.
Qed.

Lemma join_raises sep x e : join sep x = Raise e → e = TypeError.
Proof.
  unfold join. destruct (iter x) as [l|e'] eqn:Hiter.
  - assert (∀ e, strings_of l = Raise e → e = TypeError) as Hl.
    { clear. induction l as [|y l IH]; [done|]. cbn [strings_of].
      destruct y; try by intros ? [= <-].
      destruct (strings_of l); [by intros ? [=]|exact IH]. }
    destruct (strings_of l) as [ss|e'] eqn:E; [done|].
    intros [= <-]. by apply Hl.
  - destruct x; try done; intros [= <-]; by injection Hiter as <-.
Qed.



(** X7.  One unreadable entry loses the whole Variables sheet.  When an
    entry of [features] is not a record, or has a [name] but a
    [generatedDescription] that cannot be joined (e.g. [null], or a list
    holding a number), the Variable Extractor raises [TypeError]: the rows
    of the entries before it are not returned and the entries after it are
    not visited.  Only a missing [name] is skipped. *)
Theorem unreadable_entry_aborts_variables
    repr es before x after os table entity_type :
  default (JList []) (dict_get "features" es) = JList (before ++ x :: after) →
  default (JList []) (dict_get "outcomes" es) = JList os →
  Forall (λ f, well_formed_feature f = true) before →
  (is_dict x = false ∨
   ∃ d name e, x = JDict d ∧ dict_get "name" d = Some name ∧
     join " " (default (JList []) (dict_get "generatedDescription" d)) =
       Raise e) →
  result (extract_variables repr (JDict es) table entity_type) =
    Raise TypeError.
Proof.
  intros Hfs Hos Hbefore Hx. unfold extract_variables. cbn [get].
  rewrite Hfs, Hos, !bind_lift_Ok. cbn [iter_add]. rewrite bind_lift_Ok.
  rewrite result_try_except, <- app_assoc, <- app_comm_cons.
  rewrite (for_each_raises _ _ _ _ TypeError); [done| |].
  - eapply Forall_impl; [exact Hbefore|]. intros f Hf.
    by apply extract_variable_Ok.
  - unfold extract_variable. rewrite result_try_except.
    destruct Hx as [Hx|(d & name & e & -> & Hname & Hjoin)].
    + by destruct x.
    + cbn [getitem get]. rewrite Hname, bind_lift_Ok, result_bind.
      destruct (determine_value_type_total (JDict d)) as (out & vt & -> & _).
      cbn [result snd]. rewrite !bind_lift_Ok, Hjoin.
      by rewrite (join_raises _ _ _ Hjoin).
Qed.

Lemma unreadable_entry_aborts_variables_witness :
  result (extract_variables (λ _, "")
            (JDict [("features",
                     JList [feature_age;
                            JDict [("name", JStr "bmi");
                                   ("generatedDescription", JNull)];
                            feature_sex "NOMINAL"])])
            "demo" (JStr "participant")) = Raise TypeError.
Proof.
  eapply (unreadable_entry_aborts_variables (λ _, "")
            [("features", _)] [feature_age] _ [feature_sex "NOMINAL"] []).
  - reflexivity.
  - reflexivity.
  - by repeat constructor.
  - right. by eexists _, _, TypeError.
Defined.

Lemma extract_feature_categories_Ok table f :
  well_formed_categories f = true →
  ∃ rows, result (extract_feature_categories table f) = Ok rows.
Proof.
  intros Hwf. destruct (extract_feature_categories_spec table f Hwf) as [out ->].
  by eexists.
Qed.

Lemma extract_categories_aborts es before f after table :
  default (JList []) (dict_get "features" es) = JList (before ++ f :: after) →
  Forall (λ f, well_formed_categories f = true) before →
  result (extract_feature_categories table f) = Raise AttributeError →
  result (extract_categories (JDict es) table) =
    Raise (ValueError InvalidEntriesStructure).
Proof.
  intros Hfs Hbefore Hf. unfold extract_categories. cbn [get].
  rewrite Hfs, bind_lift_Ok. cbn [iter]. rewrite bind_lift_Ok.
  rewrite result_try_except.
  rewrite (for_each_raises _ _ _ _ AttributeError); [done| |done].
  eapply Forall_impl; [exact Hbefore|]. intros g Hg.
  by apply extract_feature_categories_Ok.
Qed.

Lemma unreadable_feature_raises table d :
  ((∃ v, dict_get "dataType" d = Some v ∧ isinstance_str v = false) ∨
   (data_type_is d "NOMINAL" ∧
    ∃ v, dict_get "valueSet" d = Some v ∧ is_dict v = false)) →
  result (extract_feature_categories table (JDict d)) = Raise AttributeError.
Proof.
  intros Hd. unfold extract_feature_categories. cbn [get contains getitem].
  rewrite bind_lift_Ok.
  destruct Hd as [(v & -> & Hv)|[(s & -> & Hs) (v & Hvs & Hv)]].
  - by destruct v.
  - cbn [default from_option id upper]. rewrite bind_lift_Ok, Hs.
    cbn [String.eqb Ascii.eqb Bool.eqb]. rewrite Hvs, !bind_lift_Ok.
    by destruct v.
Qed.

(** X8.  The two extractors differ on a feature they cannot read.  A
    feature whose [dataType] is not a string, or that is NOMINAL with a
    [valueSet] that is not a dict (a plain list of concepts, say), gets the
    value type "error" from the resolver, so its Variables row is still
    produced; but the Category Extractor raises
    [ValueError("Invalid entries structure")] and returns no row at all,
    not even for the features before it. *)
Theorem unreadable_feature_aborts_categories es before d after table :
  default (JList []) (dict_get "features" es) =
    JList (before ++ JDict d :: after) →
  Forall (λ f, well_formed_categories f = true) before →
  ((∃ v, dict_get "dataType" d = Some v ∧ isinstance_str v = false) ∨
   (data_type_is d "NOMINAL" ∧
    ∃ v, dict_get "valueSet" d = Some v ∧ is_dict v = false)) →
  result (extract_categories (JDict es) table) =
    Raise (ValueError InvalidEntriesStructure) ∧
  (∀ name, dict_get "name" d = Some name →
           result (determine_value_type (JDict d)) = Ok "error").
Proof.
  intros Hfs Hbefore Hd. split.
  - apply (extract_categories_aborts _ _ _ _ _ Hfs Hbefore).
    by apply unreadable_feature_raises.
  - intros name Hname.
    destruct Hd as [(v & Hdt & Hv)|[Hnominal (v & Hvs & Hv)]].
    + apply (value_type_rule_sound _ _ _ Hname).
      by apply (rule4_not_a_string _ v).
    + destruct Hnominal as (s & Hdt & Hs).
      unfold determine_value_type, determine_value_type_try. py_eval.
      by destruct v.
Qed.

Lemma unreadable_feature_aborts_categories_witness :
  result (extract_categories
            (JDict [("features",
                     JList [feature_sex "NOMINAL";
                            JDict feature_listed_values])]) "demo") =
    Raise (ValueError InvalidEntriesStructure) ∧
  result (determine_value_type (JDict feature_listed_values)) = Ok "error".
Proof.
  assert (data_type_is feature_listed_values "NOMINAL") as Hnominal
    by by exists "NOMINAL".
  pose proof (unreadable_feature_aborts_categories
                [("features", _)] [feature_sex "NOMINAL"]
                feature_listed_values [] "demo" eq_refl) as H.
  destruct H as [Habort Herror].
  - by repeat constructor.
  - right. split; [exact Hnominal|]. by eexists.
  - split; [exact Habort|]. by apply (Herror (JStr "ward")).
Defined.

(** X9.  A NOMINAL feature without a [name] gives no category row and one
    printed line per concept: the missing key is looked up again for every
    concept, and each failure is caught on its own. *)
Theorem nameless_feature_prints_per_concept es d table :
  default (JList []) (dict_get "features" es) = JList [JDict d] →
  well_formed_categories (JDict d) = true →
  has_categories d = true →
  dict_get "name" d = None →
  extract_categories (JDict es) table =
    (replicate (length (concepts_of d))
       (MissingConceptKey (KeyError (JStr "name")) JNull),
     Ok []).
Proof.
  intros Hfs Hwf Hcat Hname. unfold extract_categories. cbn [get].
  rewrite Hfs, bind_lift_Ok. cbn [iter]. rewrite bind_lift_Ok.
  cbn [for_each].
  assert (extract_feature_categories table (JDict d) =
            (replicate (length (concepts_of d))
               (MissingConceptKey (KeyError (JStr "name")) JNull), Ok []))
    as ->.
  { revert Hwf Hcat.
    unfold well_formed_categories, has_categories, concepts_of,
      extract_feature_categories.
    cbn [get contains getitem]. rewrite bind_lift_Ok.
    destruct (default (JStr "") (dict_get "dataType" d)) as [| | | |s| |];
      try done.
    cbn [isinstance_str upper andb]. rewrite bind_lift_Ok.
    destruct (upper_string s =? "NOMINAL")%string; [|done]. cbn [andb].
    rewrite bind_lift_Ok.
    destruct (dict_get "valueSet" d) as [vs|]; [|done].
    rewrite bool_decide_eq_true_2 by eauto. cbn [negb orb].
    destruct vs as [| | | | | |vd]; try done.
    rewrite bind_lift_Ok. cbn [get]. rewrite bind_lift_Ok.
    destruct (default (JList []) (dict_get "concept" vd)) as [| | | | |cs|];
      try done.
    intros Hcs _. cbn [iter]. rewrite bind_lift_Ok.
    induction cs as [|c cs IH]; [done|].
    cbn [for_each forallb] in *. apply andb_prop in Hcs as [Hc Hcs].
    rewrite (extract_category_spec _ _ _ Hc), Hname, bind_Ok, (IH Hcs).
    rewrite bind_Ok. cbn. by rewrite app_nil_r. }
  rewrite bind_Ok, bind_ret. unfold try_except, ret. cbn.
  by rewrite app_nil_r.
Qed.

Lemma nameless_feature_prints_per_concept_witness :
  extract_categories
    (JDict [("features", JList [JDict feature_unnamed_nominal])]) "demo" =
  ([MissingConceptKey (KeyError (JStr "name")) JNull;
    MissingConceptKey (KeyError (JStr "name")) JNull], Ok []).
Proof.
  exact (nameless_feature_prints_per_concept
           [("features", JList [JDict feature_unnamed_nominal])]
           feature_unnamed_nominal "demo" eq_refl eq_refl eq_refl eq_refl).
Defined.

(** ** What every row looks like *)

Lemma try_except_Ok_inv {A} (m : M A) handles (handler : exn → M A) out a :
  try_except m handles handler = (out, Ok a) →
  m = (out, Ok a) ∨
  ∃ out1 e out2, m = (out1, Raise e) ∧ handles e = true ∧
                 handler e = (out2, Ok a) ∧ out = out1 ++ out2.
Proof.
  unfold try_except. destruct m as [out1 [a'|e]]; [intros [= <- <-]; by left|].
  destruct (handles e) eqn:Hh; [|done].
  destruct (handler e) as [out2 r] eqn:E.
  intros [= <- ->]. right. by exists out1, e, out2.
Qed.

Lemma for_each_rows {A} (P : A → Prop) (body : value → M (list A)) items :
  (∀ x out rows, body x = (out, Ok rows) → Forall P rows) →
  ∀ out rows, for_each body items = (out, Ok rows) → Forall P rows.
Proof.
  intros Hbody. induction items as [|x items IH]; cbn [for_each];
    intros out rows H.
  - apply ret_Ok_inv in H as [<- _]. constructor.
  - apply bind_Ok_inv in H as (? & rows1 & ? & Hx & H & _).
    apply bind_Ok_inv in H as (? & rows2 & ? & Hrest & H & _).
    apply ret_Ok_inv in H as [<- _]. apply Forall_app. split.
    + by eapply Hbody.
    + by eapply IH.
Qed.

(** X10.  Whatever the descriptor, every row the Variable Extractor returns
    carries the table name and the entity type it was given, an empty unit,
    one of the five value types, and the script [$('name')] built from the
    row's own name. *)
Theorem variable_rows_are_uniform repr entries table entity_type out rows :
  extract_variables repr entries table entity_type = (out, Ok rows) →
  Forall (λ r, v_table r = table ∧ v_entityType r = entity_type ∧
               v_unit r = "" ∧ v_valueType r ∈ value_types ∧
               v_script r = ("$('" ++ str repr (v_name r) ++ "')")%string)
    rows.
Proof.
  unfold extract_variables. intros H.
  apply try_except_Ok_inv in H as [H|(? & e & ? & _ & _ & Hh & _)]; [|done].
  apply bind_Ok_inv in H as (? & features & ? & _ & H & _).
  apply bind_Ok_inv in H as (? & outcomes & ? & _ & H & _).
  apply bind_Ok_inv in H as (? & items & ? & _ & H & _).
  revert H. apply for_each_rows. clear. intros f out rows H.
  unfold extract_variable in H.
  apply try_except_Ok_inv in H as [H|(? & e & ? & _ & _ & Hh & _)].
  - apply bind_Ok_inv in H as (? & name & ? & _ & H & _).
    apply bind_Ok_inv in H as (? & vt & ? & Hvt & H & _).
    apply bind_Ok_inv in H as (? & description & ? & _ & H & _).
    apply bind_Ok_inv in H as (? & generated & ? & _ & H & _).
    apply bind_Ok_inv in H as (? & joined & ? & _ & H & _).
    apply ret_Ok_inv in H as [<- _]. constructor; [|constructor].
    cbn. split; [done|]. split; [done|]. split; [done|]. split; [|done].
    destruct (determine_value_type_total f) as (? & vt' & E & Hin).
    rewrite E in Hvt. by injection Hvt as _ <-.
  - rewrite bind_print in Hh. injection Hh as _ <-. constructor.
Qed.

Lemma variable_rows_are_uniform_witness :
  Forall (λ r, v_table r = "demo" ∧ v_entityType r = JStr "participant" ∧
               v_unit r = "" ∧ v_valueType r ∈ value_types ∧
               v_script r = ("$('" ++ str (λ _, "") (v_name r) ++ "')")%string)
    [Variable_row "demo" (JStr "age") "decimal" (JStr "participant") ""
       "" "$('age')";
     Variable_row "demo" (JStr "sex") "text" (JStr "participant") ""
       "" "$('sex')"].
Proof.
  exact (variable_rows_are_uniform (λ _, "") (JDict entries_demo) "demo"
           (JStr "participant") _ _ eq_refl).
Defined.

(** X11.  Whatever the descriptor, every row the Category Extractor returns
    carries the table name it was given, an empty fourth field and 0 in the
    [missing] field. *)
Theorem category_rows_are_uniform entries table out rows :
  extract_categories entries table = (out, Ok rows) →
  Forall (λ r, c_table r = table ∧ c_blank r = "" ∧ c_missing r = 0) rows.
Proof.
  unfold extract_categories. intros H.
  apply try_except_Ok_inv in H as [H|(? & e & ? & _ & _ & Hh & _)]; [|done].
  apply bind_Ok_inv in H as (? & features & ? & _ & H & _).
  apply bind_Ok_inv in H as (? & items & ? & _ & H & _).
  revert H. apply for_each_rows. clear. intros f out rows H.
  unfold extract_feature_categories in H.
  apply bind_Ok_inv in H as (? & dt & ? & _ & H & _).
  apply bind_Ok_inv in H as (? & data_type & ? & _ & H & _).
  apply bind_Ok_inv in H as (? & selected & ? & _ & H & _).
  destruct selected; [|apply ret_Ok_inv in H as [<- _]; constructor].
  apply bind_Ok_inv in H as (? & value_set & ? & _ & H & _).
  apply bind_Ok_inv in H as (? & concepts & ? & _ & H & _).
  apply bind_Ok_inv in H as (? & concept_items & ? & _ & H & _).
  revert H. apply for_each_rows. clear. intros c out rows H.
  unfold extract_category in H.
  apply try_except_Ok_inv in H as [H|(? & e & ? & _ & _ & Hh & _)].
  - apply bind_Ok_inv in H as (? & name & ? & _ & H & _).
    apply bind_Ok_inv in H as (? & code & ? & _ & H & _).
    apply bind_Ok_inv in H as (? & display & ? & _ & H & _).
    apply ret_Ok_inv in H as [<- _]. by repeat constructor.
  - apply bind_Ok_inv in Hh as (? & feature_name & ? & _ & Hh & _).
    rewrite bind_print in Hh. injection Hh as _ <-. constructor.
Qed.

Lemma category_rows_are_uniform_witness :
  Forall (λ r, c_table r = "demo" ∧ c_blank r = "" ∧ c_missing r = 0)
    [Category_row "demo" (JStr "sex") (JStr "M") "" 0 (JStr "Male");
     Category_row "demo" (JStr "sex") (JStr "F") "" 0 (JStr "Female")].
Proof.
  exact (category_rows_are_uniform (JDict entries_sex) "demo" _ _ eq_refl).
Defined.

(** X12.  A silent run is a complete one.  On well-formed features, if the
    Variable Extractor prints nothing, then every entry of [features] and
    [outcomes] got its row and no row has the value type "error". *)
Theorem silent_extraction_is_complete repr es fs os table entity_type :
  default (JList []) (dict_get "features" es) = JList fs →
  default (JList []) (dict_get "outcomes" es) = JList os →
  Forall (λ f, well_formed_feature f = true) (fs ++ os) →
  printed (extract_variables repr (JDict es) table entity_type) = [] →
  ∃ rows,
    result (extract_variables repr (JDict es) table entity_type) = Ok rows ∧
    length rows = length (fs ++ os) ∧
    Forall (λ r, v_valueType r ≠ "error") rows.
Proof.
  intros Hfs Hos Hwf. rewrite (extract_variables_spec _ _ _ _ _ _ Hfs Hos Hwf).
  cbn [printed result fst snd]. intros Hsilent. eexists. split; [done|].
  induction Hwf as [|f l Hf _ IH]; [by split|].
  cbn [fmap list_fmap concat] in Hsilent.
  apply app_eq_nil in Hsilent as [Hf_silent Hrest].
  destruct (IH Hrest) as [Hlen Herr].
  rewrite (extract_variable_spec _ _ _ _ Hf) in Hf_silent.
  cbn [omap list_omap]. fold (omap (variable_row_of repr table entity_type) l).
  destruct (variable_row_of repr table entity_type f) as [row|] eqn:Hrow;
    [|done].
  cbn [printed fst] in Hf_silent. split; [cbn; by rewrite Hlen|].
  constructor; [|done].
  destruct f as [| | | | | |d]; try done. cbn [variable_row_of] in Hrow.
  destruct (dict_get "name" d); [|done]. injection Hrow as <-.
  cbn [v_valueType]. unfold resolved_value_type.
  destruct (determine_value_type_cases (JDict d))
    as [(_ & vt & -> & Hvt)|(e & E)].
  - intros ->. apply list_elem_of_In in Hvt. cbn in Hvt.
    repeat destruct Hvt as [?|Hvt]; done.
  - by rewrite E in Hf_silent.
Qed.

Lemma silent_extraction_is_complete_witness :
  ∃ rows,
    result (extract_variables (λ _, "") (JDict entries_sex) "demo"
              (JStr "participant")) = Ok rows ∧
    length rows = 3%nat ∧
    Forall (λ r, v_valueType r ≠ "error") rows.
Proof.
  exact (silent_extraction_is_complete (λ _, "") entries_sex
           [feature_age; feature_sex "NOMINAL"] [feature_sex "NOMINAL"]
           "demo" (JStr "participant") eq_refl eq_refl
           ltac:(by repeat constructor) eq_refl).
Defined.

(** ** More on the Availability Encoder *)

Section MoreEncoderProperties.
Import Encoder.

Lemma encode_step_shape cols (df : frame) :
  let written :=
    fold_left
      (λ df col,
         if bool_decide (col ∉ BASE_COLUMNS)
         then assign col (map (λ x, astype_int (notna x))) df
         else df)
      cols df in
  columns written = columns df ∧
  map (λ c, length c.2) written = map (λ c, length c.2) df.
Proof.
  revert df. induction cols as [|col cols IH]; intros df; [done|].
  cbn [fold_left]. cbn zeta in IH. case_bool_decide; [|apply IH].
  destruct (IH (assign col (map (λ x, astype_int (notna x))) df))
    as [-> ->].
  unfold assign, columns. rewrite !map_map. split; apply map_ext.
  - intros c. by destruct (String.eqb c.1 col).
  - intros c. destruct (String.eqb c.1 col); [|done]. cbn.
    by rewrite length_map.
Qed.

(** X13.  The encoder keeps the shape of the table: whatever the table and
    the outcome of the validation, it returns a table with the same column
    labels in the same order and the same number of cells in each column. *)
Theorem transform_data_keeps_shape df dictionary :
  ∃ out written,
    transform_data df dictionary = (out, Ok written) ∧
    columns written = columns df ∧
    map (λ c, length c.2) written = map (λ c, length c.2) df.
Proof.
  pose proof (transform_data_result df dictionary) as Hresult.
  destruct (transform_data df dictionary) as [out r]. cbn in Hresult.
  subst r. eexists _, _. split; [done|]. apply encode_step_shape.
Qed.

Lemma columns_encoded df : columns (map encode_column df) = columns df.
Proof.
  unfold columns. rewrite map_map. apply map_ext. intros c.
  unfold encode_column. by case_bool_decide.
Qed.

(** X14.  The encoder is not idempotent.  Fed its own output, it sets every
    cell of every non-identifier column to 1, since a 0 is a value and not
    a missing cell: the availability information is lost. *)
Theorem encoding_twice_gives_ones df dictionary dictionary' written :
  NoDup (columns df) →
  result (transform_data df dictionary) = Ok written →
  result (transform_data written dictionary') = Ok (map all_present df).
Proof.
  intros Hcols. rewrite transform_data_spec by done. intros [= <-].
  rewrite transform_data_spec by by rewrite columns_encoded.
  f_equal. rewrite map_map. apply map_ext. intros [label cells].
  unfold encode_column, all_present. cbn [fst snd].
  destruct (decide (label ∈ BASE_COLUMNS)) as [Hbase|Hbase].
  - rewrite !(bool_decide_eq_true_2 (label ∈ BASE_COLUMNS)) by done.
    cbn [fst]. by rewrite ?(bool_decide_eq_true_2 (label ∈ BASE_COLUMNS)).
  - rewrite !(bool_decide_eq_false_2 (label ∈ BASE_COLUMNS)) by done.
    cbn [fst snd].
    rewrite ?(bool_decide_eq_false_2 (label ∈ BASE_COLUMNS)) by done.
    f_equal. rewrite map_map. by apply map_ext.
Qed.

Lemma encoding_twice_gives_ones_witness :
  result (transform_data
            [("pid", [Str "p1"; NA; Str ""]);
             ("a", [Int 0; Int 1; Int 1]);
             ("b", [Int 1; Int 0; Int 1])] None) =
    Ok [("pid", [Str "p1"; NA; Str ""]);
        ("a", [Int 1; Int 1; Int 1]);
        ("b", [Int 1; Int 1; Int 1])].
Proof.
  refine (encoding_twice_gives_ones frame_visits None None _ _ eq_refl).
  apply (bool_decide_unpack (NoDup (columns frame_visits))).
  vm_compute. exact I.
Defined.

Lemma difference_empty_iff (A B : gset string) :
  A ∖ B = ∅ ∧ B ∖ A = ∅ ↔ A = B.
Proof.
  split.
  - intros [HAB HBA]. apply set_eq. intros x. split; intros Hx.
    + destruct (decide (x ∈ B)) as [|Hno]; [done|]. exfalso.
      apply (not_elem_of_empty (C:=gset string) x). rewrite <- HAB.
      by apply elem_of_difference.
    + destruct (decide (x ∈ A)) as [|Hno]; [done|]. exfalso.
      apply (not_elem_of_empty (C:=gset string) x). rewrite <- HBA.
      by apply elem_of_difference.
  - intros ->. split; apply set_eq; intros x; rewrite elem_of_difference;
      split; [by intros [? ?]|by intros ?%not_elem_of_empty
             |by intros [? ?]|by intros ?%not_elem_of_empty].
Qed.

(** X15.  The validator reports success exactly when the set of
    non-identifier columns of the table equals the set of names of the
    dictionary; order and repetitions do not count. *)
Theorem validation_succeeds_iff_same_names cols names :
  printed (validate_dictionary cols (Ok (Str <$> names))) =
    [ValidationSuccessful] ↔
  (list_to_set (filter (λ col, col ∉ BASE_COLUMNS) cols) : gset string) =
    list_to_set names.
Proof.
  rewrite validate_dictionary_names. unfold mismatches.
  cbn [printed fst]. case_bool_decide as Hsame.
  - split; [intros _; by apply difference_empty_iff|done].
  - split; [done|]. intros Heq. destruct Hsame. by apply difference_empty_iff.
Qed.

Lemma validation_succeeds_iff_same_names_witness :
  printed (validate_dictionary ["pid"; "b"; "a"]
             (Ok (Str <$> ["a"; "b"; "a"]))) = [ValidationSuccessful].
Proof.
  apply (proj2 (validation_succeeds_iff_same_names ["pid"; "b"; "a"]
                  ["a"; "b"; "a"])).
  by vm_compute.
Defined.

(** X16.  An identifier column listed in a dictionary whose names are all
    strings is reported as missing in the table, whether or not the table
    has it: the identifier columns are taken out of the table's columns
    before the comparison, but not out of the dictionary's names. *)
Theorem listed_identifier_is_reported cols names name :
  name ∈ BASE_COLUMNS → name ∈ names →
  ∃ missing,
    name ∈ missing ∧
    ColumnsMissingInParquet missing ∈
      printed (validate_dictionary cols (Ok (Str <$> names))).
Proof.
  intros Hbase Hname. rewrite validate_dictionary_names. unfold mismatches.
  set (checked := list_to_set (filter _ cols) : gset string).
  assert (name ∈ list_to_set names ∖ checked) as Hin.
  { apply elem_of_difference. split; [by apply elem_of_list_to_set|].
    unfold checked. rewrite elem_of_list_to_set, list_elem_of_filter.
    by intros [? _]. }
  exists (list_to_set names ∖ checked). split; [done|].
  assert (list_to_set names ∖ checked ≠ (∅ : gset string)) as Hne.
  { intros Hempty. rewrite Hempty in Hin. by apply not_elem_of_empty in Hin. }
  cbn [printed fst].
  rewrite (bool_decide_eq_false_2 (_ ∧ _)) by by intros [_ ?].
  rewrite (bool_decide_eq_false_2 (list_to_set names ∖ checked = ∅)) by done.
  right. apply elem_of_app. right. by left.
Qed.

Lemma listed_identifier_is_reported_witness :
  ∃ missing,
    "pid" ∈ missing ∧
    ColumnsMissingInParquet missing ∈
      printed (validate_dictionary ["pid"; "a"] (Ok (Str <$> ["pid"; "a"]))).
Proof.
  apply (listed_identifier_is_reported ["pid"; "a"] ["pid"; "a"] "pid").
  - by left.
  - by left.
Defined.

(** X17.  A name of the dictionary that is not a string (a blank cell, a
    number) breaks the report, not the run: the validator prints the header,
    the columns missing in the dictionary if any, then the [TypeError] of the
    failed join as a validation error, and returns. *)
Theorem non_string_name_breaks_report cols dict_columns :
  forallb is_str dict_columns = false →
  validate_dictionary cols (Ok dict_columns) =
    (let in_dict : gset string :=
       list_to_set (filter (λ col, col ∉ BASE_COLUMNS) cols) ∖
       list_to_set (strings dict_columns) in
     ValidationErrors ::
     (if bool_decide (in_dict = ∅) then [] else [ColumnsMissingInXLS in_dict]) ++
     [ValidationError TypeError; Proceeding],
     Ok tt).
Proof.
  intros Hstr. unfold validate_dictionary.
  rewrite bind_lift_Ok. cbv beta zeta. rewrite Hstr. cbn [negb].
  rewrite !orb_true_r.
  set (checked := list_to_set (filter _ cols) : gset string).
  set (in_dict := checked ∖ list_to_set (strings dict_columns)).
  unfold join_set.
  case_bool_decide as Hdict.
  - rewrite (bool_decide_eq_false_2 (in_dict = ∅)) by done.
    by rewrite try_except_any.
  - rewrite (bool_decide_eq_true_2 (in_dict = ∅)) by
      (destruct (decide (in_dict = ∅)); [done|by destruct Hdict]).
    by rewrite try_except_any.
Qed.

Lemma non_string_name_breaks_report_witness :
  validate_dictionary ["pid"; "a"; "b"] (Ok [Str "a"; NA]) =
    ([ValidationErrors; ColumnsMissingInXLS {["b"]};
      ValidationError TypeError; Proceeding], Ok tt).
Proof.
  rewrite (non_string_name_breaks_report ["pid"; "a"; "b"] [Str "a"; NA]
             eq_refl).
  by vm_compute.
Defined.

End MoreEncoderProperties.

(** ** The conversion run *)

(** X18.  [validate_json_structure] accepts exactly the dicts whose
    [entries] is a list that starts with a dict holding both a [features]
    and an [outcomes] key.  Nothing is asked of what those keys hold, nor of
    the entries after the first; and no value that is not a dict is ever
    accepted. *)
Theorem validate_json_structure_accepts data :
  Structure.validate_json_structure data = Structure.Fine tt ↔
  ∃ d e rest,
    data = JDict d ∧
    dict_get "entries" d = Some (JList (JDict e :: rest)) ∧
    is_Some (dict_get "features" e) ∧ is_Some (dict_get "outcomes" e).
Proof.
  split.
  - unfold Structure.validate_json_structure.
    destruct data as [| | | |s|l|d]; try done.
    + cbn [contains getitem]. by destruct (is_substring "entries" s).
    + cbn [contains getitem]. by destruct (existsb _ l).
    + cbn [contains getitem]. case_bool_decide as Hentries; [|done].
      destruct Hentries as [entries Hentries]. rewrite Hentries.
      destruct entries as [| | | | |[|first rest]|]; try done.
      cbn. destruct first as [| | | | | |e]; try done. cbn.
      do 2 (case_bool_decide; [|done]). intros _. by exists d, e, rest.
  - intros (d & e & rest & -> & Hentries & Hfs & Hos).
    unfold Structure.validate_json_structure. cbn [contains getitem].
    rewrite Hentries. rewrite bool_decide_eq_true_2 by eauto. cbn.
    by rewrite !bool_decide_eq_true_2.
Qed.

Lemma validate_json_structure_accepts_witness :
  Structure.validate_json_structure (JDict data_demo) = Structure.Fine tt.
Proof.
  apply (proj2 (validate_json_structure_accepts (JDict data_demo))).
  exists data_demo, entries_sex, [JNull]. by repeat split; eauto.
Defined.

Lemma R_bind_Fine {A B} out (a : A) (k : A → Structure.R B) :
  Structure.bind (out, Structure.Fine a) k = (out ++ (k a).1, (k a).2).
Proof. unfold Structure.bind. by destruct (k a). Qed.

Lemma R_bind_Fine_inv {A B} (m : Structure.R A) (k : A → Structure.R B) out b :
  Structure.bind m k = (out, Structure.Fine b) →
  ∃ out1 a out2, m = (out1, Structure.Fine a) ∧
                 k a = (out2, Structure.Fine b) ∧ out = out1 ++ out2.
Proof.
  unfold Structure.bind. destruct m as [out1 [a|f]]; [|done].
  destruct (k a) as [out2 r] eqn:E. intros [= <- ->]. by exists out1, a, out2.
Qed.

Lemma R_bind_ret {A B} (a : A) (k : A → Structure.R B) :
  Structure.bind (Structure.ret a) k = k a.
Proof. unfold Structure.bind, Structure.ret. by destruct (k a). Qed.

Lemma R_bind_Fine_ex {A B} out (a : A) (k : A → Structure.R B) b :
  (∃ out', k a = (out', Structure.Fine b)) →
  ∃ out', Structure.bind (out, Structure.Fine a) k = (out', Structure.Fine b).
Proof. intros [out' Hk]. unfold Structure.bind. rewrite Hk. by eexists. Qed.

Lemma call_Fine_inv {A} (m : M A) out a :
  Structure.call m = (out, Structure.Fine a) →
  result m = Ok a ∧ out = map Structure.Stderr (printed m).
Proof. destruct m as [o [a'|e]]; [|done]. by intros [= <- <-]. Qed.

Lemma main_try_first_entry repr d e rest table writing :
  dict_get "entries" d = Some (JList (e :: rest)) →
  Main.main_try repr (Structure.Loaded (JDict d)) table writing =
  Main.main_try repr
    (Structure.Loaded (JDict [("entries", JList [e])])) table writing.
Proof.
  intros Hentries. unfold Main.main_try. rewrite !R_bind_ret.
  unfold Structure.validate_json_structure. cbn [contains getitem].
  rewrite Hentries. reflexivity.
Qed.

(** X19.  A run uses the first entry only: two loaded documents whose
    [entries] lists start with the same entry print the same, end the same
    and write the same workbook, whatever their further entries and their
    other top-level keys. *)
Theorem main_reads_first_entry_only repr d d' e rest rest' table writing :
  dict_get "entries" d = Some (JList (e :: rest)) →
  dict_get "entries" d' = Some (JList (e :: rest')) →
  Main.main repr (Structure.Loaded (JDict d)) table writing =
    Main.main repr (Structure.Loaded (JDict d')) table writing.
Proof.
  intros Hd Hd'. unfold Main.main.
  by rewrite (main_try_first_entry _ _ _ _ _ _ Hd),
             (main_try_first_entry _ _ _ _ _ _ Hd').
Qed.

Lemma main_reads_first_entry_only_witness :
  Main.main (λ _, "") (Structure.Loaded (JDict data_demo)) "demo"
    Structure.Saved =
  Main.main (λ _, "")
    (Structure.Loaded (JDict [("entries", JList [JDict entries_sex])]))
    "demo" Structure.Saved.
Proof.
  exact (main_reads_first_entry_only (λ _, "") data_demo
           [("entries", JList [JDict entries_sex])] (JDict entries_sex)
           [JNull] [] "demo" Structure.Saved eq_refl eq_refl).
Defined.

(** X20.  A workbook is written only by a complete run.  If [main] returns,
    then the input was loaded and has the required structure, writing
    succeeded, and the two sheets are exactly the rows the extractors give
    for the first entry, with the entity type the resolver gave for it;
    the last line printed is the success message. *)
Theorem main_writes_only_complete_runs repr json_file table writing out w :
  Main.main repr json_file table writing = (out, Structure.Done w) →
  writing = Structure.Saved ∧
  last out = Some Structure.Success ∧
  ∃ d e rest entity_type,
    json_file = Structure.Loaded (JDict d) ∧
    dict_get "entries" d = Some (JList (JDict e :: rest)) ∧
    is_Some (dict_get "features" e) ∧ is_Some (dict_get "outcomes" e) ∧
    result (get_entity_type (JDict e)) = Ok entity_type ∧
    result (extract_variables repr (JDict e) table entity_type) =
      Ok (Structure.Variables w) ∧
    result (extract_categories (JDict e) table) =
      Ok (Structure.Categories w).
Proof.
  unfold Main.main.
  destruct (Main.main_try repr json_file table writing) as [out' [w'|f]] eqn:E;
    [|done].
  intros [= <- <-]. unfold Main.main_try in E.
  apply R_bind_Fine_inv in E as (? & data & ? & Hsrc & E & ->).
  destruct json_file as [| |data']; try done. injection Hsrc as <- <-.
  apply R_bind_Fine_inv in E as (? & [] & ? & Hvalid & E & ->).
  injection Hvalid as <- Hvalid.
  apply validate_json_structure_accepts in Hvalid
    as (d & e & rest & -> & Hentries & Hfs & Hos).
  cbn [getitem] in E. rewrite Hentries in E. cbn [getitem0] in E.
  apply R_bind_Fine_inv in E as (? & entries & ? & Hentry & E & ->).
  injection Hentry as <- <-.
  apply R_bind_Fine_inv in E as (? & entity_type & ? & Het & E & ->).
  apply call_Fine_inv in Het as [Het ->].
  apply R_bind_Fine_inv in E as (? & variables & ? & Hv & E & ->).
  apply call_Fine_inv in Hv as [Hv ->].
  apply R_bind_Fine_inv in E as (? & categories & ? & Hc & E & ->).
  apply call_Fine_inv in Hc as [Hc ->].
  apply R_bind_Fine_inv in E as (? & [] & ? & Hw & E & ->).
  destruct writing; try done. injection Hw as <-.
  injection E as <- <-.
  split; [done|]. split.
  - rewrite !app_assoc. apply last_snoc.
  - by exists d, e, rest, entity_type.
Qed.

Lemma main_writes_only_complete_runs_witness :
  ∃ d e rest entity_type,
    Structure.Loaded (JDict data_demo) = Structure.Loaded (JDict d) ∧
    dict_get "entries" d = Some (JList (JDict e :: rest)) ∧
    is_Some (dict_get "features" e) ∧ is_Some (dict_get "outcomes" e) ∧
    result (get_entity_type (JDict e)) = Ok entity_type ∧
    result (extract_variables (λ _, "") (JDict e) "demo" entity_type) =
      Ok [Variable_row "demo" (JStr "age") "decimal" (JStr "participant") ""
            "" "$('age')";
          Variable_row "demo" (JStr "sex") "text" (JStr "participant") ""
            "" "$('sex')";
          Variable_row "demo" (JStr "sex") "text" (JStr "participant") ""
            "" "$('sex')"] ∧
    result (extract_categories (JDict e) "demo") =
      Ok [Category_row "demo" (JStr "sex") (JStr "M") "" 0 (JStr "Male");
          Category_row "demo" (JStr "sex") (JStr "F") "" 0 (JStr "Female")].
Proof.
  exact (proj2 (proj2 (main_writes_only_complete_runs (λ _, "")
                         (Structure.Loaded (JDict data_demo)) "demo"
                         Structure.Saved _ _ eq_refl))).
Defined.

(** X21.  On a well-formed document a run cannot fail before writing.  When
    the first entry holds lists of well-formed features and outcomes and the
    workbook can be saved, [main] returns, and the workbook holds the
    Variables rows of [features] followed by [outcomes] and the Categories
    rows of [features], all with the resolved entity type. *)
Theorem main_succeeds_on_well_formed repr d e rest fs os table :
  dict_get "entries" d = Some (JList (JDict e :: rest)) →
  dict_get "features" e = Some (JList fs) →
  dict_get "outcomes" e = Some (JList os) →
  Forall (λ f, well_formed_feature f = true) (fs ++ os) →
  Forall (λ f, well_formed_categories f = true) fs →
  ∃ out entity_type,
    result (get_entity_type (JDict e)) = Ok entity_type ∧
    Main.main repr (Structure.Loaded (JDict d)) table Structure.Saved =
      (out,
       Structure.Done
         (Structure.Workbook
            (omap (variable_row_of repr table entity_type) (fs ++ os))
            (concat (category_rows_of table <$> fs)))).
Proof.
  intros Hentries Hfs Hos Hwf Hwfc.
  destruct (get_entity_type_total (JDict e)) as (out1 & entity_type & Het).
  assert (default (JList []) (dict_get "features" e) = JList fs) as Hfs'
    by by rewrite Hfs.
  assert (default (JList []) (dict_get "outcomes" e) = JList os) as Hos'
    by by rewrite Hos.
  pose proof (extract_variables_spec repr e fs os table entity_type
                Hfs' Hos' Hwf) as Hv.
  pose proof (extract_categories_spec e fs table Hfs' Hwfc) as Hc.
  destruct (extract_categories (JDict e) table) as [out3 r3] eqn:Ec.
  cbn [result snd] in Hc. subst r3.
  assert (∃ out,
            Main.main_try repr (Structure.Loaded (JDict d)) table
              Structure.Saved =
            (out,
             Structure.Fine
               (Structure.Workbook
                  (omap (variable_row_of repr table entity_type) (fs ++ os))
                  (concat (category_rows_of table <$> fs))))) as [out Htry].
  { rewrite (main_try_first_entry _ _ _ _ _ _ Hentries).
    unfold Main.main_try. rewrite R_bind_ret.
    unfold Structure.validate_json_structure.
    cbn [contains getitem getitem0 dict_get String.eqb Ascii.eqb Bool.eqb
         Structure.isinstance_list Structure.isinstance_dict Structure.len
         length Nat.eqb negb Structure.check_sections].
    rewrite Hfs, Hos. rewrite !bool_decide_eq_true_2 by eauto.
    unfold Structure.check. apply R_bind_Fine_ex.
    unfold lift. cbn [Structure.call]. apply R_bind_Fine_ex.
    rewrite Het. cbn [Structure.call]. apply R_bind_Fine_ex.
    rewrite Hv. cbn [Structure.call]. apply R_bind_Fine_ex.
    rewrite Ec. cbn [Structure.call]. apply R_bind_Fine_ex.
    unfold Structure.ret at 1. apply R_bind_Fine_ex.
    unfold Structure.print. apply R_bind_Fine_ex. by eexists. }
  exists out, entity_type. split; [by rewrite Het|].
  unfold Main.main. by rewrite Htry.
Qed.

Lemma main_succeeds_on_well_formed_witness :
  ∃ out entity_type,
    result (get_entity_type (JDict entries_sex)) = Ok entity_type ∧
    Main.main (λ _, "") (Structure.Loaded (JDict data_demo)) "demo"
      Structure.Saved =
      (out,
       Structure.Done
         (Structure.Workbook
            (omap (variable_row_of (λ _, "") "demo" entity_type)
               ([feature_age; feature_sex "NOMINAL"] ++
                [feature_sex "NOMINAL"]))
            (concat (category_rows_of "demo" <$>
                       [feature_age; feature_sex "NOMINAL"])))).
Proof.
  apply (main_succeeds_on_well_formed (λ _, "") data_demo entries_sex [JNull]
           [feature_age; feature_sex "NOMINAL"] [feature_sex "NOMINAL"]
           "demo" eq_refl eq_refl eq_refl); by repeat constructor.
Defined.

Lemma R_bind_Failed_ex {A B} out (a : A) (k : A → Structure.R B) f :
  (∃ out', k a = (out', Structure.Failed f)) →
  ∃ out', Structure.bind (out, Structure.Fine a) k =
            (out', Structure.Failed f).
Proof. intros [out' Hk]. unfold Structure.bind. rewrite Hk. by eexists. Qed.

(** X22.  One feature the Category Extractor cannot read fails the whole
    run.  On a document that passes validation and whose Variables sheet can
    be built, a feature whose [dataType] is not a string, or that is NOMINAL
    with a [valueSet] that is not a dict, makes [main] print the error
    "Invalid entries structure" and exit with status 1: no workbook is
    written, whatever the state of the output file. *)
Theorem unreadable_feature_fails_the_run
    repr d e rest before dd after os table writing :
  dict_get "entries" d = Some (JList (JDict e :: rest)) →
  dict_get "features" e = Some (JList (before ++ JDict dd :: after)) →
  dict_get "outcomes" e = Some (JList os) →
  Forall (λ f, well_formed_feature f = true)
    ((before ++ JDict dd :: after) ++ os) →
  Forall (λ f, well_formed_categories f = true) before →
  ((∃ v, dict_get "dataType" dd = Some v ∧ isinstance_str v = false) ∨
   (data_type_is dd "NOMINAL" ∧
    ∃ v, dict_get "valueSet" dd = Some v ∧ is_dict v = false)) →
  ∃ out,
    Main.main repr (Structure.Loaded (JDict d)) table writing =
      (out, Structure.Exit1) ∧
    Structure.Error
      (Structure.Exception (ValueError InvalidEntriesStructure)) ∈ out.
Proof.
  intros Hentries Hfs Hos Hwf Hbefore Hdd.
  destruct (get_entity_type_total (JDict e)) as (out1 & entity_type & Het).
  assert (default (JList []) (dict_get "features" e) =
            JList (before ++ JDict dd :: after)) as Hfs' by by rewrite Hfs.
  assert (default (JList []) (dict_get "outcomes" e) = JList os) as Hos'
    by by rewrite Hos.
  pose proof (extract_variables_spec repr e _ os table entity_type
                Hfs' Hos' Hwf) as Hv.
  pose proof (extract_categories_aborts e before (JDict dd) after table
                Hfs' Hbefore (unreadable_feature_raises table dd Hdd)) as Hc.
  destruct (extract_categories (JDict e) table) as [out3 r3] eqn:Ec.
  cbn [result snd] in Hc. subst r3.
  assert (∃ out,
            Main.main_try repr (Structure.Loaded (JDict d)) table writing =
            (out,
             Structure.Failed
               (Structure.Exception (ValueError InvalidEntriesStructure))))
    as [out Htry].
  { rewrite (main_try_first_entry _ _ _ _ _ _ Hentries).
    unfold Main.main_try. rewrite R_bind_ret.
    unfold Structure.validate_json_structure.
    cbn [contains getitem getitem0 dict_get String.eqb Ascii.eqb Bool.eqb
         Structure.isinstance_list Structure.isinstance_dict Structure.len
         length Nat.eqb negb Structure.check_sections].
    rewrite Hfs, Hos. rewrite !bool_decide_eq_true_2 by eauto.
    unfold Structure.check. apply R_bind_Failed_ex.
    unfold lift. cbn [Structure.call]. apply R_bind_Failed_ex.
    rewrite Het. cbn [Structure.call]. apply R_bind_Failed_ex.
    rewrite Hv. cbn [Structure.call]. apply R_bind_Failed_ex.
    rewrite Ec. cbn [Structure.call]. by eexists. }
  unfold Main.main. rewrite Htry. eexists. split; [done|].
  apply elem_of_app. right. by left.
Qed.

Lemma unreadable_feature_fails_the_run_witness :
  ∃ out,
    Main.main (λ _, "")
      (Structure.Loaded
         (JDict [("entries",
                  JList [JDict [("features",
                                 JList [feature_age;
                                        JDict feature_listed_values]);
                                ("outcomes", JList [])]])]))
      "demo" Structure.Saved = (out, Structure.Exit1) ∧
    Structure.Error
      (Structure.Exception (ValueError InvalidEntriesStructure)) ∈ out.
Proof.
  eapply (unreadable_feature_fails_the_run (λ _, "")
            [("entries", _)] [("features", _); ("outcomes", _)] []
            [feature_age] feature_listed_values [] [] "demo" Structure.Saved
            eq_refl eq_refl eq_refl).
  - by repeat constructor.
  - by repeat constructor.
  - right. split; [by exists "NOMINAL"|]. by eexists.
Defined.
